(** * pycovenantsql.connections: the connection / query-execution protocol

    A shallow embedding of [src/pycovenantsql/connections.py]: the class
    [Connection] (construction, connect, close, commit, rollback, query and the
    internal dispatch / validation / read-result methods) and the class
    [CovenantSQLResult] (the result materializer).

    Python objects are mutated in place and exceptions do not roll anything
    back, so methods are computations in a state-and-exception monad whose
    state survives a raise.  The HTTPS transport, the configuration file
    parser, the [int()] builtin on text and the three runtime flags of
    [_compat] are not part of the sources; they are the fields of an
    environment the methods are parameterised by. *)

From Stdlib Require Import ZArith NArith QArith List String Ascii Bool Lia.
From Stdlib Require Import DecimalString.
From Stdlib Require Import Floats.SpecFloat.
Import ListNotations.

Set Warnings "-register-all".
Local Open Scope string_scope.
Local Open Scope list_scope.
Local Open Scope Z_scope.

(* ===================================================================== *)
(** ** Python values *)
(* ===================================================================== *)

Module Py.

(** A Python text string ([str], or [unicode] on Python 2) is a sequence of
    code points.  Lone surrogates U+D800..U+DFFF can occur in it. *)
Definition codepoint := N.
Definition text := list codepoint.

(** A Python [bytes] object: a sequence of octets, which is what a Rocq
    [string] is. *)
Definition bytes := string.

(** An ASCII literal of the source, as text. *)
Definition lit (s : string) : text := map N_of_ascii (list_ascii_of_string s).

Fixpoint text_eqb (a b : text) : bool :=
  match a, b with
  | [], [] => true
  | x :: a', y :: b' => N.eqb x y && text_eqb a' b'
  | _, _ => false
  end.

(** What [resp.json()] can return: the values of the [json] module.  A decoded
    object is a [dict], kept as the association list of its items in insertion
    order (its keys are distinct). *)
Inductive json : Type :=
| JNull
| JBool (b : bool)
| JInt (z : Z)
| JFloat (f : spec_float)
| JStr (s : text)
| JArr (items : list json)
| JObj (members : list (text * json)).

(** The exception classes that occur: [ValueError], [KeyError], [TypeError],
    [AttributeError] and [UnicodeEncodeError] are builtins; [Error],
    [InterfaceError] and [OperationalError] are the classes of the driver's
    [err] module. *)
Inductive exn_class : Type :=
| ValueError
| KeyError
| TypeError
| AttributeError
| UnicodeEncodeError
| Error
| InterfaceError
| OperationalError.

(** An exception instance: its class and its [args]. *)
Record exn : Type := Exn { exn_cls : exn_class; exn_args : list json }.

(** A value or a raised exception. *)
Inductive outcome (A : Type) : Type :=
| Return (a : A)
| Raise (e : exn).
Arguments Return {A} a.
Arguments Raise {A} e.

(** *** Truth value testing ([if x], [not x], [x or y]) *)

Definition float_is_zero (f : spec_float) : bool :=
  match f with S754_zero _ => true | _ => false end.

Definition truthy (v : json) : bool :=
  match v with
  | JNull => false
  | JBool b => b
  | JInt z => negb (z =? 0)
  | JFloat f => negb (float_is_zero f)
  | JStr s => match s with [] => false | _ => true end
  | JArr l => match l with [] => false | _ => true end
  | JObj m => match m with [] => false | _ => true end
  end.

Definition text_truthy (t : text) : bool :=
  match t with [] => false | _ => true end.

Definition opt_text_truthy (o : option text) : bool :=
  match o with Some t => text_truthy t | None => false end.

(** *** Subscription [v[key]] with a text key *)

Fixpoint dict_get (m : list (text * json)) (key : text) : option json :=
  match m with
  | [] => None
  | (k, v) :: m' => if text_eqb k key then Some v else dict_get m' key
  end.

Definition subscript (v : json) (key : text) : outcome json :=
  match v with
  | JObj m =>
      match dict_get m key with
      | Some x => Return x
      | None => Raise (Exn KeyError [JStr key])
      end
  | _ => Raise (Exn TypeError [])
  end.

(** *** [len(v)] *)

Definition len (v : json) : outcome Z :=
  match v with
  | JStr s => Return (Z.of_nat (List.length s))
  | JArr l => Return (Z.of_nat (List.length l))
  | JObj m => Return (Z.of_nat (List.length m))
  | _ => Raise (Exn TypeError [])
  end.

(** *** Iteration [for x in v]: the items produced, or [TypeError] *)

Definition iter (v : json) : outcome (list json) :=
  match v with
  | JStr s => Return (map (fun c => JStr [c]) s)
  | JArr l => Return l
  | JObj m => Return (map (fun kv => JStr (fst kv)) m)
  | _ => Raise (Exn TypeError [])
  end.

(** *** [str(n)] for an integer *)

Definition str_of_int (n : Z) : text :=
  lit (NilZero.string_of_int (Z.to_int n)).

(** *** [bytes.lower()], [bytes.lstrip()], [bytes.startswith(prefix)] *)

Definition is_upper (a : ascii) : bool :=
  let n := N_of_ascii a in ((65 <=? n) && (n <=? 90))%N.

Definition lower_byte (a : ascii) : ascii :=
  if is_upper a then ascii_of_N (N_of_ascii a + 32) else a.

Fixpoint lower (b : bytes) : bytes :=
  match b with
  | EmptyString => EmptyString
  | String a b' => String (lower_byte a) (lower b')
  end.

(** ASCII whitespace, the default strip set: space, \t, \n, \r, \x0b, \x0c. *)
Definition is_space (a : ascii) : bool :=
  let n := N_of_ascii a in ((n =? 32) || ((9 <=? n) && (n <=? 13)))%N.

Fixpoint lstrip (b : bytes) : bytes :=
  match b with
  | EmptyString => EmptyString
  | String a b' => if is_space a then lstrip b' else b
  end.

Definition startswith (b prefix : bytes) : bool := String.prefix prefix b.

(** *** [text.encode('utf8', errors)] *)

(** How the UTF-8 codec treats a surrogate code point U+D800..U+DFFF.
    Python 3's strict handler raises [UnicodeEncodeError] on every one of
    them.  Its ['surrogateescape'] handler (PEP 383) turns U+DC80..U+DCFF,
    the code points that stand for undecodable bytes, back into the bytes
    0x80..0xFF, and raises on every other surrogate, U+D800 for one.
    Python 2's codec encodes a surrogate like any other three-byte code
    point.  A code point above U+10FFFF does not occur in a string; the
    model gives it no encoding. *)
Inductive surrogates : Type := Strict | SurrogateEscape | PassThrough.

Definition byte_of (n : N) : ascii := ascii_of_N n.

Definition is_surrogate (c : codepoint) : bool :=
  ((55296 <=? c) && (c <=? 57343))%N.

Definition three_bytes (c : codepoint) : list ascii :=
  [ byte_of (224 + c / 4096);
    byte_of (128 + (c / 64) mod 64);
    byte_of (128 + c mod 64) ]%N.

Definition encode_codepoint (h : surrogates) (c : codepoint)
  : option (list ascii) :=
  if (c <? 128)%N then Some [byte_of c]
  else if (c <? 2048)%N then
    Some [byte_of (192 + c / 64); byte_of (128 + c mod 64)]%N
  else if is_surrogate c then
    match h with
    | Strict => None
    | SurrogateEscape =>
        if ((56448 <=? c) && (c <=? 56575))%N
        then Some [byte_of (c - 56320)]
        else None
    | PassThrough => Some (three_bytes c)
    end
  else if (c <? 65536)%N then Some (three_bytes c)
  else if (c <=? 1114111)%N then
    Some [ byte_of (240 + c / 262144);
           byte_of (128 + (c / 4096) mod 64);
           byte_of (128 + (c / 64) mod 64);
           byte_of (128 + c mod 64) ]%N
  else None.

Fixpoint encode_points (h : surrogates) (t : text) : option (list ascii) :=
  match t with
  | [] => Some []
  | c :: t' =>
      match encode_codepoint h c, encode_points h t' with
      | Some bs, Some rest => Some (bs ++ rest)%list
      | _, _ => None
      end
  end.

Definition encode (h : surrogates) (t : text) : outcome bytes :=
  match encode_points h t with
  | Some bs => Return (string_of_list_ascii bs)
  | None => Raise (Exn UnicodeEncodeError [])
  end.

(** *** Numbers given as timeouts *)

(** A timeout is an [int] or a [float]; a float is a finite value, an
    infinity or a NaN.  Python compares an [int] and a [float] by their
    exact values, so a finite float is kept as the rational it stands for
    (0.5 is [1 # 2]). *)
Inductive number : Type :=
| NumInt (z : Z)
| NumFloat (q : Q)
| NumInf (negative : bool)
| NumNaN.

(** [k < x], for an integer literal [k]. *)
Definition int_lt (k : Z) (x : number) : bool :=
  match x with
  | NumInt z => k <? z
  | NumFloat q => negb (Qle_bool q (inject_Z k))
  | NumInf negative => negb negative
  | NumNaN => false
  end.

(** [x <= k], for an integer literal [k]. *)
Definition le_int (x : number) (k : Z) : bool :=
  match x with
  | NumInt z => z <=? k
  | NumFloat q => Qle_bool q (inject_Z k)
  | NumInf negative => negative
  | NumNaN => false
  end.

(** The truth value of a number: false for 0 and 0.0. *)
Definition number_truthy (x : number) : bool :=
  match x with
  | NumInt z => negb (z =? 0)
  | NumFloat q => negb (Qeq_bool q 0)
  | NumInf _ => true
  | NumNaN => true
  end.

End Py.
Import Py.

(* ===================================================================== *)
(** ** The data model *)
(* ===================================================================== *)

(** [T "..."]: a string literal of the source, as text. *)
Notation "'T' s" := (lit s) (at level 9, s at level 0, only parsing).

(** The form fields of one POST: [data = {"database": ..., "query": ...}],
    with the URI it is posted to. *)
Record Request : Type := {
  uri : text;
  form_database : option text;
  form_query : bytes
}.

(** The [requests.Response] attributes the driver reads.  [body_json] is what
    [resp.json()] returns, [None] when it raises. *)
Record Response : Type := {
  ok : bool;
  reason : text;
  body_json : option json
}.

(** What [session.post] does: raise ([str(error)] is kept) or return. *)
Inductive PostResult : Type :=
| PostRaises (error : text)
| PostReturns (resp : Response).

(** The [cert] attribute of the session: [(https_pem, key)] or [key]. *)
Inductive Cert : Type :=
| CertPair (https_pem : text) (key : option text)
| CertKey (key : option text).

Record Session : Type := { verify : bool; cert : Cert }.

(** The cursor class handed to the constructor; [Cursor] is the default. *)
Inductive CursorClass : Type := Cursor | CustomCursor (id : nat).

(** What the methods are parameterised by: the runtime flags of [_compat],
    the configuration parser of [optionfile] (a lookup by file, group and
    key that answers a string or nothing; [os.path.expanduser] is part of
    it), the builtin [int()] on text, and the transport, which answers a
    request knowing the requests sent before it. *)
Record Runtime : Type := {
  PY2 : bool;
  JYTHON : bool;
  IRONPYTHON : bool;
  cfg_get : text -> text -> text -> option text;
  py_int : text -> option Z;
  session_post : list Request -> Request -> PostResult
}.

(** *** class CovenantSQLResult *)

Record CovenantSQLResult : Type := {
  affected_rows : option Z;
  insert_id : option Z;
  warning_count : Z;
  message : option text;
  field_count : Z;
  description : option json;
  rows : option (list (list json));
  has_next : option bool
}.

(** [CovenantSQLResult.__init__]; the [connection] back reference is the
    connection passed to [read]. *)
Definition CovenantSQLResult__init__ : CovenantSQLResult := {|
  affected_rows := None;
  insert_id := None;
  warning_count := 0;
  message := None;
  field_count := 0;
  description := None;
  rows := None;
  has_next := None
|}.

Definition set_affected_rows (v : option Z) (r : CovenantSQLResult) :=
  {| affected_rows := v; insert_id := insert_id r;
     warning_count := warning_count r; message := message r;
     field_count := field_count r; description := description r;
     rows := rows r; has_next := has_next r |}.

Definition set_rows (v : option (list (list json))) (r : CovenantSQLResult) :=
  {| affected_rows := affected_rows r; insert_id := insert_id r;
     warning_count := warning_count r; message := message r;
     field_count := field_count r; description := description r;
     rows := v; has_next := has_next r |}.

(** *** class Connection *)

(** The instance attributes.  An attribute of type [option] that [__init__]
    does not assign ([_closed], [_resp_json], [server_status], and
    [use_unicode] when it is not given on Python 2) is [None] while the
    instance does not have it; [_resp], [_result], [_sock], [key] and the
    like are [None] when they hold Python's [None]. *)
Record Connection : Type := {
  dsn : option text;
  host : text;
  port : Z;
  key : option text;
  database : option text;
  encoding : text;
  _query_uri : text;
  _exec_uri : text;
  _session : Session;
  connect_timeout : option number;
  _read_timeout : option number;
  _write_timeout : option number;
  use_unicode : option bool;
  cursorclass : CursorClass;
  autocommit_mode : option bool;
  _result : option CovenantSQLResult;
  _affected_rows : option Z;
  _sock : option bool;
  _closed : option bool;
  _resp : option Response;
  _resp_json : option json;
  server_status : option json
}.

(** Reading [self._closed]: the instance attribute when there is one, the
    class attribute [_closed = False] otherwise. *)
Definition closed (c : Connection) : bool :=
  match _closed c with Some b => b | None => false end.

Definition set_result (v : option CovenantSQLResult) (c : Connection) :=
  let 'Build_Connection a1 a2 a3 a4 a5 a6 a7 a8 a9 a10 a11 a12 a13 a14 a15
        _ a17 a18 a19 a20 a21 a22 := c in
  Build_Connection a1 a2 a3 a4 a5 a6 a7 a8 a9 a10 a11 a12 a13 a14 a15
        v a17 a18 a19 a20 a21 a22.

Definition set_affected (v : option Z) (c : Connection) :=
  let 'Build_Connection a1 a2 a3 a4 a5 a6 a7 a8 a9 a10 a11 a12 a13 a14 a15
        a16 _ a18 a19 a20 a21 a22 := c in
  Build_Connection a1 a2 a3 a4 a5 a6 a7 a8 a9 a10 a11 a12 a13 a14 a15
        a16 v a18 a19 a20 a21 a22.

Definition set_sock (v : option bool) (c : Connection) :=
  let 'Build_Connection a1 a2 a3 a4 a5 a6 a7 a8 a9 a10 a11 a12 a13 a14 a15
        a16 a17 _ a19 a20 a21 a22 := c in
  Build_Connection a1 a2 a3 a4 a5 a6 a7 a8 a9 a10 a11 a12 a13 a14 a15
        a16 a17 v a19 a20 a21 a22.

Definition set_closed (v : option bool) (c : Connection) :=
  let 'Build_Connection a1 a2 a3 a4 a5 a6 a7 a8 a9 a10 a11 a12 a13 a14 a15
        a16 a17 a18 _ a20 a21 a22 := c in
  Build_Connection a1 a2 a3 a4 a5 a6 a7 a8 a9 a10 a11 a12 a13 a14 a15
        a16 a17 a18 v a20 a21 a22.

Definition set_resp (v : option Response) (c : Connection) :=
  let 'Build_Connection a1 a2 a3 a4 a5 a6 a7 a8 a9 a10 a11 a12 a13 a14 a15
        a16 a17 a18 a19 _ a21 a22 := c in
  Build_Connection a1 a2 a3 a4 a5 a6 a7 a8 a9 a10 a11 a12 a13 a14 a15
        a16 a17 a18 a19 v a21 a22.

Definition set_resp_json (v : option json) (c : Connection) :=
  let 'Build_Connection a1 a2 a3 a4 a5 a6 a7 a8 a9 a10 a11 a12 a13 a14 a15
        a16 a17 a18 a19 a20 _ a22 := c in
  Build_Connection a1 a2 a3 a4 a5 a6 a7 a8 a9 a10 a11 a12 a13 a14 a15
        a16 a17 a18 a19 a20 v a22.

Definition set_server_status (v : option json) (c : Connection) :=
  let 'Build_Connection a1 a2 a3 a4 a5 a6 a7 a8 a9 a10 a11 a12 a13 a14 a15
        a16 a17 a18 a19 a20 a21 _ := c in
  Build_Connection a1 a2 a3 a4 a5 a6 a7 a8 a9 a10 a11 a12 a13 a14 a15
        a16 a17 a18 a19 a20 a21 v.

(** The SQL argument of [query] and [_execute_command]: text or bytes. *)
Inductive sql_arg : Type :=
| SqlText (t : text)
| SqlBytes (b : bytes).

(** The keyword arguments of [Connection.__init__]. *)
Record InitArgs : Type := {
  arg_dsn : option text;
  arg_host : option text;
  arg_port : Z;
  arg_key : option text;
  arg_database : option text;
  arg_https_pem : option text;
  arg_read_default_file : option text;
  arg_use_unicode : option bool;
  arg_cursorclass : CursorClass;
  arg_init_command : option text;
  arg_connect_timeout : option number;
  arg_read_default_group : option text;
  arg_autocommit : option bool;
  arg_defer_connect : bool;
  arg_read_timeout : option number;
  arg_write_timeout : option number
}.

(** The defaults of the signature. *)
Definition default_args : InitArgs := {|
  arg_dsn := None; arg_host := None; arg_port := 0; arg_key := None;
  arg_database := None; arg_https_pem := None;
  arg_read_default_file := None; arg_use_unicode := None;
  arg_cursorclass := Cursor; arg_init_command := None;
  arg_connect_timeout := Some (NumInt 10); arg_read_default_group := None;
  arg_autocommit := Some false; arg_defer_connect := false;
  arg_read_timeout := None; arg_write_timeout := None
|}.

(* ===================================================================== *)
(** ** The state-and-exception monad *)
(* ===================================================================== *)

(** The state a method runs in: the connection object and the requests that
    went to the transport so far, oldest first. *)
Record state : Type := { self : Connection; wire : list Request }.

Definition M (A : Type) : Type := state -> state * outcome A.

Definition ret {A} (a : A) : M A := fun st => (st, Return a).

Definition raise {A} (e : exn) : M A := fun st => (st, Raise e).

Definition bind {A B} (m : M A) (k : A -> M B) : M B :=
  fun st =>
    match m st with
    | (st', Return a) => k a st'
    | (st', Raise e) => (st', Raise e)
    end.

(** A pure computation that may raise. *)
Definition lift {A} (o : outcome A) : M A := fun st => (st, o).

Definition get_self : M Connection := fun st => (st, Return (self st)).

(** [self.attr = v]. *)
Definition assign (f : Connection -> Connection) : M unit :=
  fun st => ({| self := f (self st); wire := wire st |}, Return tt).

Declare Scope monad_scope.
Delimit Scope monad_scope with monad.
Notation "x <- m ;; k" := (bind m (fun x => k))
  (at level 61, m at next level, right associativity) : monad_scope.
Notation "m ;; k" := (bind m (fun _ => k))
  (at level 61, right associativity) : monad_scope.
Local Open Scope monad_scope.

(** [Exception(msg)] and [Exception(msg, detail)]. *)
Definition exn1 (c : exn_class) (msg : string) : exn := Exn c [JStr (T msg)].
Definition exn2 (c : exn_class) (msg : string) (detail : json) : exn :=
  Exn c [JStr (T msg); detail].

(* ===================================================================== *)
(** ** class CovenantSQLResult: read *)
(* ===================================================================== *)

(** [row = []; for column in line: row.append(column)] *)
Fixpoint append_columns (columns : list json) (row : list json) : list json :=
  match columns with
  | [] => row
  | column :: rest => append_columns rest (row ++ [column])
  end.

(** [for line in data['rows']: ...; rows.append(tuple(row))], from the
    [rows] collected so far; iterating over a [line] can raise. *)
Fixpoint append_lines (lines : list json) (rows : list (list json))
  : outcome (list (list json)) :=
  match lines with
  | [] => Return rows
  | line :: rest =>
      match iter line with
      | Raise e => Raise e
      | Return columns =>
          append_lines rest (rows ++ [append_columns columns []])
      end
  end.

(** [self.connection._resp_json["data"]]; reading an attribute the instance
    does not have raises [AttributeError]. *)
Definition resp_json_data (connection : Connection) : outcome json :=
  match _resp_json connection with
  | None => Raise (Exn AttributeError [])
  | Some j => subscript j (T "data")
  end.

(** [CovenantSQLResult.read]: the result object after the call and what the
    call did.  The bare [except:] turns whatever the lookup of ["data"]
    raises into an [InterfaceError]. *)
Definition read (connection : Connection) (r : CovenantSQLResult)
  : CovenantSQLResult * outcome unit :=
  match resp_json_data connection with
  | Raise _ => (r, Raise (exn1 InterfaceError "Unsupported response format"))
  | Return data =>
      match data with
      | JNull => (* exec result *) (r, Return tt)
      | _ =>
          (* read json data *)
          match subscript data (T "rows") with
          | Raise e => (r, Raise e)
          | Return data_rows =>
              match len data_rows with
              | Raise e => (r, Raise e)
              | Return n =>
                  let r := set_affected_rows (Some n) r in
                  match iter data_rows with
                  | Raise e => (r, Raise e)
                  | Return lines =>
                      match append_lines lines [] with
                      | Raise e => (r, Raise e)
                      | Return rows => (set_rows (Some rows) r, Return tt)
                      end
                  end
              end
          end
      end
  end.

(* ===================================================================== *)
(** ** class Connection: the methods *)
(* ===================================================================== *)

Section Methods.

Variable rt : Runtime.

(** A string literal of the source: text on Python 3, [str] (bytes) on
    Python 2. *)
Definition literal (s : string) : sql_arg :=
  if PY2 rt then SqlBytes s else SqlText (T s).

(** [sql.encode(self.encoding)]: the encoding is ['utf8'] throughout. *)
Definition encode_strict (t : text) : outcome bytes :=
  encode (if PY2 rt then PassThrough else Strict) t.

(** [if isinstance(sql, text_type): sql = sql.encode(self.encoding)], the
    bytes [_execute_command] goes on with. *)
Definition command_bytes (sql : sql_arg) : outcome bytes :=
  match sql with
  | SqlText t => encode_strict t
  | SqlBytes b => Return b
  end.

(** [self._session.post(uri, data=data)]: the request goes on the wire and
    the transport answers. *)
Definition post (u : text) (data : option text * bytes) : M PostResult :=
  fun st =>
    let req := {| uri := u; form_database := fst data;
                  form_query := snd data |} in
    ({| self := self st; wire := wire st ++ [req] |},
     Return (session_post rt (wire st) req)).

(** The [if]/[else] of the [try] block: which endpoint gets the POST. *)
Definition dispatch (c : Connection) (sql : bytes) : M PostResult :=
  let data := (database c, sql) in
  if startswith (lstrip (lower sql)) "select"
  then post (_query_uri c) data
  else post (_exec_uri c) data.

Definition _execute_command (sql : sql_arg) : M unit :=
  c <- get_self ;;
  if closed c then raise (exn1 InterfaceError "Connection closed") else
  sql <- lift (command_bytes sql) ;;
  (* drop last command return *)
  match _resp c with
  | Some _ => assign (set_resp None)
  | None => ret tt
  end ;;
  (* post request *)
  answer <- dispatch c sql ;;
  match answer with
  | PostRaises error =>
      raise (Exn InterfaceError
               [JStr (T "Request proxy err: " ++ error)%list])
  | PostReturns resp =>
      assign (set_resp (Some resp)) ;;
      match body_json resp with
      | Some j => assign (set_resp_json (Some j))
      | None =>
          raise (exn2 InterfaceError "Proxy return invalid data"
                      (JStr (reason resp)))
      end
  end.

Definition _read_ok_packet : M json :=
  c <- get_self ;;
  envelope <- match _resp_json c with
              | Some j => ret j
              | None => raise (Exn AttributeError [])
              end ;;
  success <- lift (subscript envelope (T "success")) ;;
  assign (set_server_status (Some success)) ;;
  if negb (truthy success) then
    detail <- lift (subscript envelope (T "status")) ;;
    raise (exn2 OperationalError "Syntax error" detail)
  else
    c <- get_self ;;
    match _resp c with
    | None => raise (Exn AttributeError [])
    | Some resp =>
        if negb (ok resp) then
          raise (exn2 OperationalError "Proxy return false"
                      (JStr (reason resp)))
        else ret success
    end.

Definition _read_query_result : M (option Z) :=
  assign (set_result None) ;;
  _read_ok_packet ;;
  c <- get_self ;;
  match read c CovenantSQLResult__init__ with
  | (_, Raise e) => raise e
  | (result, Return _) =>
      assign (set_result (Some result)) ;;
      ret (affected_rows result)
  end.

(** The head of [query]: text is encoded, except on Jython and
    IronPython, where it is passed on as it is. *)
Definition query_arg (sql : sql_arg) : outcome sql_arg :=
  match sql with
  | SqlText t =>
      if negb (JYTHON rt || IRONPYTHON rt) then
        match (if PY2 rt then encode PassThrough t
               else encode SurrogateEscape t) with
        | Return b => Return (SqlBytes b)
        | Raise e => Raise e
        end
      else Return sql
  | SqlBytes _ => Return sql
  end.

Definition query (sql : sql_arg) : M (option Z) :=
  sql <- lift (query_arg sql) ;;
  _execute_command sql ;;
  n <- _read_query_result ;;
  assign (set_affected n) ;;
  ret n.

Definition connect : M unit :=
  assign (set_closed (Some false)) ;;
  assign (set_sock (Some true)) ;;
  _execute_command (literal "select 1;") ;;
  _read_ok_packet ;;
  ret tt.

Definition close : M unit :=
  c <- get_self ;;
  if closed c then raise (exn1 Error "Already closed") else
  assign (set_sock None) ;;
  assign (set_closed (Some true)).

Definition commit : M unit :=
  _execute_command (literal "COMMIT") ;;
  _read_ok_packet ;;
  ret tt.

Definition rollback : M unit :=
  _execute_command (literal "ROLLBACK") ;;
  _read_ok_packet ;;
  ret tt.

(** [cursor(self, cursor=None)]: the class the new cursor is made with. *)
Definition cursor (override : option CursorClass) : M CursorClass :=
  match override with
  | Some cls => ret cls
  | None => c <- get_self ;; ret (cursorclass c)
  end.

(** *** Construction *)

(** [_config(key, arg)], the closure of [__init__], for an option that holds
    text: a truthy argument wins, then the file's value, then the argument. *)
Definition _config (file group : text) (key : string) (arg : option text)
  : option text :=
  if opt_text_truthy arg then arg
  else match cfg_get rt file group (T key) with
       | Some v => Some v
       | None => arg
       end.

(** [int(_config("port", port))]: [int()] of what the file holds can raise. *)
Definition _config_port (file group : text) (arg : Z) : outcome Z :=
  if negb (arg =? 0) then Return arg
  else match cfg_get rt file group (T "port") with
       | Some v =>
           match py_int rt v with
           | Some n => Return n
           | None =>
               Raise (exn1 ValueError "invalid literal for int() with base 10")
           end
       | None => Return arg
       end.

(** The six options the file can fill in. *)
Record Filled : Type := {
  f_dsn : option text;
  f_host : option text;
  f_port : Z;
  f_key : option text;
  f_database : option text;
  f_https_pem : option text
}.

(** Step 2 of [__init__]: read config params from file. *)
Definition read_config (a : InitArgs) : outcome Filled :=
  let read_default_file :=
    if opt_text_truthy (arg_read_default_group a)
       && negb (opt_text_truthy (arg_read_default_file a))
    then Some (T "covenant.cnf")
    else arg_read_default_file a in
  let unfilled := {|
    f_dsn := arg_dsn a; f_host := arg_host a; f_port := arg_port a;
    f_key := arg_key a; f_database := arg_database a;
    f_https_pem := arg_https_pem a |} in
  match read_default_file with
  | Some file =>
      if text_truthy file then
        let group :=
          match arg_read_default_group a with
          | Some g => if text_truthy g then g else T "python-client"
          | None => T "python-client"
          end in
        match _config_port file group (arg_port a) with
        | Raise e => Raise e
        | Return p =>
            Return {|
              f_dsn := _config file group "dsn" (arg_dsn a);
              f_host := _config file group "host" (arg_host a);
              f_port := p;
              f_key := _config file group "key" (arg_key a);
              f_database := _config file group "database" (arg_database a);
              f_https_pem := _config file group "https_pem" (arg_https_pem a)
            |}
        end
      else Return unfilled
  | None => Return unfilled
  end.

Definition endpoint (host : text) (port : Z) (path : string) : text :=
  (T "https://" ++ host ++ T ":" ++ str_of_int port ++ T path)%list.

(** The object [__init__] has built when it reaches [if defer_connect]. *)
Definition built (a : InitArgs) (f : Filled) : Connection :=
  let host := match f_host f with
              | Some h => if text_truthy h then h else T "localhost"
              | None => T "localhost"
              end in
  let port := if f_port f =? 0 then 11108 else f_port f in
  {| dsn := f_dsn f;
     host := host;
     port := port;
     key := f_key f;
     database := f_database f;
     encoding := T "utf8";
     _query_uri := endpoint host port "/v1/query";
     _exec_uri := endpoint host port "/v1/exec";
     _session :=
       {| verify := false;
          cert := match f_https_pem f with
                  | Some pem =>
                      if text_truthy pem then CertPair pem (f_key f)
                      else CertKey (f_key f)
                  | None => CertKey (f_key f)
                  end |};
     connect_timeout :=
       match arg_connect_timeout a with
       | Some t => if number_truthy t then Some t else None
       | None => None
       end;
     _read_timeout := arg_read_timeout a;
     _write_timeout := arg_write_timeout a;
     use_unicode :=
       match arg_use_unicode a with
       | None => if negb (PY2 rt) then Some true else None
       | Some u => Some u
       end;
     cursorclass := arg_cursorclass a;
     autocommit_mode := arg_autocommit a;
     _result := None;
     _affected_rows := Some 0;
     _sock := None;
     _closed := None;
     _resp := None;
     _resp_json := None;
     server_status := None |}.

(** The checks of the three timeouts, in the order of the source.
    [connect_timeout] is compared as it is: against [None], [0 < None]
    raises [TypeError] on Python 3 and is false on Python 2. *)
Definition check_timeouts (a : InitArgs) : outcome unit :=
  match arg_connect_timeout a with
  | None =>
      if PY2 rt then
        Raise (exn1 ValueError "connect_timeout should be >0 and <=31536000")
      else Raise (Exn TypeError [])
  | Some connect_timeout =>
      if negb (int_lt 0 connect_timeout
               && le_int connect_timeout 31536000) then
        Raise (exn1 ValueError "connect_timeout should be >0 and <=31536000")
      else if match arg_read_timeout a with
              | Some t => le_int t 0
              | None => false
              end then
        Raise (exn1 ValueError "read_timeout should be >= 0")
      else if match arg_write_timeout a with
              | Some t => le_int t 0
              | None => false
              end then
        Raise (exn1 ValueError "write_timeout should be >= 0")
      else Return tt
  end.

(** [Connection(...)]: the requests on the wire afterwards, and the new
    connection or the exception that left the constructor. *)
Definition __init__ (a : InitArgs) (w : list Request)
  : list Request * outcome Connection :=
  match read_config a with
  | Raise e => (w, Raise e)
  | Return f =>
      match check_timeouts a with
      | Raise e => (w, Raise e)
      | Return _ =>
          if arg_defer_connect a then (w, Return (built a f))
          else
            match connect {| self := built a f; wire := w |} with
            | (st, Return _) => (wire st, Return (self st))
            | (st, Raise e) => (wire st, Raise e)
            end
      end
  end.

(** *** The public operations, as one type of calls *)

Inductive call : Type :=
| Connect
| Close
| Commit
| Rollback
| Query (sql : sql_arg)
| MakeCursor (override : option CursorClass).

(** One call on the connection: the state it leaves, and whether it raised. *)
Definition invoke (k : call) (st : state) : state * option exn :=
  let finish {A} (r : state * outcome A) :=
    match r with
    | (st', Return _) => (st', None)
    | (st', Raise e) => (st', Some e)
    end in
  match k with
  | Connect => finish (connect st)
  | Close => finish (close st)
  | Commit => finish (commit st)
  | Rollback => finish (rollback st)
  | Query sql => finish (query sql st)
  | MakeCursor o => finish (cursor o st)
  end.

(** A sequence of calls, each made whatever the one before it did. *)
Fixpoint run (ks : list call) (st : state) : state :=
  match ks with
  | [] => st
  | k :: ks' => run ks' (fst (invoke k st))
  end.

End Methods.

(* ===================================================================== *)
(** ** The dispatch rule in the words of the specification *)
(* ===================================================================== *)

(** Whitespace, listed: space, tab, line feed, vertical tab, form feed,
    carriage return. *)
Definition whitespace : list ascii :=
  [" "; "009"; "010"; "011"; "012"; "013"]%char.

Definition is_whitespace (a : ascii) : bool :=
  existsb (Ascii.eqb a) whitespace.

(** Trim leading whitespace from the command bytes. *)
Fixpoint trim_leading_whitespace (b : bytes) : bytes :=
  match b with
  | EmptyString => EmptyString
  | String a b' => if is_whitespace a then trim_leading_whitespace b' else b
  end.

(** Two bytes that are equal up to the case of an ASCII letter. *)
Definition same_letter (a b : ascii) : bool :=
  Ascii.eqb a b
  || (is_upper a && Ascii.eqb (ascii_of_N (N_of_ascii a + 32)) b)
  || (is_upper b && Ascii.eqb a (ascii_of_N (N_of_ascii b + 32))).

(** [b] begins with [p], compared case-insensitively. *)
Fixpoint has_prefix_nocase (p b : bytes) : bool :=
  match p, b with
  | EmptyString, _ => true
  | String x p', String y b' => same_letter x y && has_prefix_nocase p' b'
  | String _ _, EmptyString => false
  end.

(** Case-insensitive-trimmed-prefix [select]. *)
Definition is_select_command (b : bytes) : bool :=
  has_prefix_nocase "select" (trim_leading_whitespace b).

(* ===================================================================== *)
(** ** Vocabulary of the statements *)
(* ===================================================================== *)

(** The request a command with the bytes [b] makes on the connection [c]. *)
Definition request_of (c : Connection) (b : bytes) : Request :=
  {| uri := if is_select_command b then _query_uri c else _exec_uri c;
     form_database := database c;
     form_query := b |}.

(** [InterfaceError("Connection closed")] *)
Definition closed_error : exn :=
  Exn InterfaceError [JStr (T "Connection closed")].

(** The three errors of the timeout checks. *)
Definition timeout_errors : list exn :=
  [ Exn ValueError [JStr (T "connect_timeout should be >0 and <=31536000")];
    Exn ValueError [JStr (T "read_timeout should be >= 0")];
    Exn ValueError [JStr (T "write_timeout should be >= 0")] ].

(** [k < x] and [x <= k] as propositions on the value of [x]; both are
    false of a NaN. *)
Definition above (k : Z) (x : number) : Prop :=
  match x with
  | NumInt z => k < z
  | NumFloat q => (inject_Z k < q)%Q
  | NumInf negative => negative = false
  | NumNaN => False
  end.

Definition at_most (k : Z) (x : number) : Prop :=
  match x with
  | NumInt z => z <= k
  | NumFloat q => (q <= inject_Z k)%Q
  | NumInf negative => negative = true
  | NumNaN => False
  end.


(** Every timeout inside its range. *)
Definition good_timeouts (a : InitArgs) : Prop :=
  (exists t, arg_connect_timeout a = Some t
             /\ above 0 t /\ at_most 31536000 t)
  /\ (forall t, arg_read_timeout a = Some t -> ~ at_most 0 t)
  /\ (forall t, arg_write_timeout a = Some t -> ~ at_most 0 t).

(** No configuration file is named, directly or through a group. *)
Definition no_config_file (a : InitArgs) : Prop :=
  opt_text_truthy (arg_read_default_file a) = false
  /\ opt_text_truthy (arg_read_default_group a) = false.



(** The 256 bytes, for facts about pairs of bytes decided by evaluation. *)
Definition all_bytes : list ascii := map ascii_of_nat (seq 0 256).

(** The computation [m] does not change the attribute [f] of the
    connection. *)
Definition preserves {X : Type} (f : Connection -> X) {A : Type} (m : M A)
  : Prop :=
  forall st, f (self (fst (m st))) = f (self st).

(** The two endpoints, as [__init__] computes them from host and port. *)
Definition endpoints_ok (c : Connection) : Prop :=
  _query_uri c
  = T "https://" ++ host c ++ T ":" ++ str_of_int (port c) ++ T "/v1/query"
  /\ _exec_uri c
     = T "https://" ++ host c ++ T ":" ++ str_of_int (port c) ++ T "/v1/exec".

(* ===================================================================== *)
(** ** Sample runtimes, envelopes and connections *)
(* ===================================================================== *)

Module Samples.

(** [{"success": true, "data": {"rows": [[1, "a"], [2, "b"]]}}] *)
Definition envelope_rows : json :=
  JObj [ (T "success", JBool true);
         (T "data",
          JObj [ (T "rows",
                  JArr [ JArr [JInt 1; JStr (T "a")];
                         JArr [JInt 2; JStr (T "b")] ]) ]) ].

(** [{"success": true, "data": null}] *)
Definition envelope_exec : json :=
  JObj [ (T "success", JBool true); (T "data", JNull) ].

(** [{"success": false, "status": "syntax error"}] *)
Definition envelope_error : json :=
  JObj [ (T "success", JBool false); (T "status", JStr (T "syntax error")) ].

Definition response_200 (body : json) : Response :=
  {| ok := true; reason := T "OK"; body_json := Some body |}.

Definition response_500 (body : json) : Response :=
  {| ok := false; reason := T "Internal Server Error";
     body_json := Some body |}.

(** CPython 3, no configuration file, and a transport that answers every
    request with the same response. *)
Definition answering (resp : Response) : Runtime :=
  {| PY2 := false; JYTHON := false; IRONPYTHON := false;
     cfg_get := fun _ _ _ => None;
     py_int := fun _ => None;
     session_post := fun _ _ => PostReturns resp |}.

(** The same, with a transport that refuses every connection. *)
Definition unreachable : Runtime :=
  {| PY2 := false; JYTHON := false; IRONPYTHON := false;
     cfg_get := fun _ _ _ => None;
     py_int := fun _ => None;
     session_post := fun _ _ => PostRaises (T "Connection refused") |}.

(** [Connection(defer_connect=True)] *)
Definition deferred_args : InitArgs :=
  {| arg_dsn := None; arg_host := None; arg_port := 0; arg_key := None;
     arg_database := None; arg_https_pem := None;
     arg_read_default_file := None; arg_use_unicode := None;
     arg_cursorclass := Cursor; arg_init_command := None;
     arg_connect_timeout := Some (NumInt 10); arg_read_default_group := None;
     arg_autocommit := Some false; arg_defer_connect := true;
     arg_read_timeout := None; arg_write_timeout := None |}.

(** The connection [Connection(defer_connect=True)] returns. *)
Definition fresh : Connection :=
  built unreachable deferred_args
    {| f_dsn := None; f_host := None; f_port := 0; f_key := None;
       f_database := None; f_https_pem := None |}.

(** A connection that was opened, with nothing on the wire any more. *)
Definition opened : state :=
  {| self := set_sock (Some true) (set_closed (Some false) fresh);
     wire := [] |}.

(** A connection after [close()]. *)
Definition shut : state :=
  {| self := set_closed (Some true) (set_sock None (self opened));
     wire := [] |}.

(** An open connection that has just received [resp], decoded as
    [envelope]. *)
Definition holding (resp : Response) (envelope : json) : state :=
  {| self := set_resp_json (Some envelope)
               (set_resp (Some resp) (self opened));
     wire := [] |}.

(** A result of two rows, as a query left it. *)
Definition two_rows : CovenantSQLResult :=
  set_rows (Some [[JInt 1; JStr (T "a")]; [JInt 2; JStr (T "b")]])
    (set_affected_rows (Some 2) CovenantSQLResult__init__).

(** An open connection that holds the result of an earlier query. *)
Definition after_select : state :=
  {| self := set_affected (Some 2)
               (set_result (Some two_rows)
                  (set_resp_json (Some envelope_rows)
                     (set_resp (Some (response_200 envelope_rows))
                        (self opened))));
     wire := [] |}.



(** [Connection(connect_timeout=0.5, defer_connect=True)] *)
Definition half_second_args : InitArgs :=
  {| arg_dsn := None; arg_host := None; arg_port := 0; arg_key := None;
     arg_database := None; arg_https_pem := None;
     arg_read_default_file := None; arg_use_unicode := None;
     arg_cursorclass := Cursor; arg_init_command := None;
     arg_connect_timeout := Some (NumFloat (1 # 2));
     arg_read_default_group := None;
     arg_autocommit := Some false; arg_defer_connect := true;
     arg_read_timeout := None; arg_write_timeout := None |}.

(** [Connection(host="10.0.0.1", port=9000, database="db0")] *)
Definition remote_args : InitArgs :=
  {| arg_dsn := None; arg_host := Some (T "10.0.0.1"); arg_port := 9000;
     arg_key := None;
     arg_database := Some (T "db0"); arg_https_pem := None;
     arg_read_default_file := None; arg_use_unicode := None;
     arg_cursorclass := Cursor; arg_init_command := None;
     arg_connect_timeout := Some (NumInt 10);
     arg_read_default_group := None;
     arg_autocommit := Some false; arg_defer_connect := false;
     arg_read_timeout := None; arg_write_timeout := None |}.

(** [u"\ud800"], a lone surrogate outside U+DC80..U+DCFF. *)
Definition lone_surrogate : text := [55296%N].

End Samples.

(* ===================================================================== *)
(** ** Further vocabulary *)
(* ===================================================================== *)

(** Every byte of [b] is ASCII whitespace. *)
Fixpoint all_space (b : bytes) : bool :=
  match b with
  | EmptyString => true
  | String a b' => is_space a && all_space b'
  end.

(** A Unicode scalar value: a code point up to U+10FFFF that is not a
    surrogate. *)
Definition is_scalar (c : codepoint) : bool :=
  (c <=? 1114111)%N && negb (is_surrogate c).

(** Every byte of [b] is below 0x80. *)
Fixpoint all_ascii (b : bytes) : bool :=
  match b with
  | EmptyString => true
  | String a b' => (N_of_ascii a <? 128)%N && all_ascii b'
  end.

(** The transport answers the command [b], sent in the state [st], with an
    ok status and a body that decodes to an envelope whose success member
    is truthy. *)
Definition validates (rt : Runtime) (st : state) (b : bytes) : Prop :=
  exists resp envelope success,
    session_post rt (wire st) (request_of (self st) b) = PostReturns resp
    /\ body_json resp = Some envelope
    /\ subscript envelope (T "success") = Return success
    /\ truthy success = true
    /\ ok resp = true.

(** The configuration file [__init__] reads, if any: the one named, or
    [covenant.cnf] when only a group is named. *)
Definition effective_file (a : InitArgs) : option text :=
  if opt_text_truthy (arg_read_default_group a)
     && negb (opt_text_truthy (arg_read_default_file a))
  then Some (T "covenant.cnf")
  else arg_read_default_file a.

(** The group [__init__] looks options up in: the one named, or
    [python-client]. *)
Definition effective_group (a : InitArgs) : text :=
  match arg_read_default_group a with
  | Some g => if text_truthy g then g else T "python-client"
  | None => T "python-client"
  end.

Module MoreSamples.

(** Jython: Python 2, and [query] does not encode. *)
Definition jython : Runtime :=
  {| PY2 := true; JYTHON := true; IRONPYTHON := false;
     cfg_get := fun _ _ _ => None;
     py_int := fun _ => None;
     session_post := fun _ _ => PostRaises (T "Connection refused") |}.

(** CPython 3 with a transport whose answer is not JSON. *)
Definition garbling : Runtime :=
  {| PY2 := false; JYTHON := false; IRONPYTHON := false;
     cfg_get := fun _ _ _ => None;
     py_int := fun _ => None;
     session_post := fun _ _ =>
       PostReturns {| ok := false; reason := T "Bad Gateway";
                      body_json := None |} |}.

(** [{"data": null}]: no success member. *)
Definition envelope_no_success : json := JObj [ (T "data", JNull) ].

(** [{"success": false}]: no status member. *)
Definition envelope_no_status : json := JObj [ (T "success", JBool false) ].

(** [{"success": true}]: no data member. *)
Definition envelope_no_data : json := JObj [ (T "success", JBool true) ].

(** [{"success": true, "data": {}}]: data without rows. *)
Definition envelope_no_rows : json :=
  JObj [ (T "success", JBool true); (T "data", JObj []) ].

(** [{"success": true, "data": {"rows": [[1], 2]}}]: a row that is a
    number. *)
Definition envelope_bad_row : json :=
  JObj [ (T "success", JBool true);
         (T "data", JObj [ (T "rows", JArr [ JArr [JInt 1]; JInt 2 ]) ]) ].

(** [{"success": true, "data": {"rows": ["ab", {"k": 1}]}}]: rows that are
    a string and an object. *)
Definition envelope_odd_rows : json :=
  JObj [ (T "success", JBool true);
         (T "data",
          JObj [ (T "rows",
                  JArr [ JStr (T "ab"); JObj [ (T "k", JInt 1) ] ]) ]) ].

(** A configuration file [my.cnf] whose group [python-client] names a
    host, a port and a database, and whose [int()] reads decimal 8080. *)
Definition with_file : Runtime :=
  {| PY2 := false; JYTHON := false; IRONPYTHON := false;
     cfg_get := fun file group key =>
       if text_eqb file (T "my.cnf") && text_eqb group (T "python-client")
       then if text_eqb key (T "host") then Some (T "db.example.org")
            else if text_eqb key (T "port") then Some (T "8080")
            else if text_eqb key (T "database") then Some (T "db0")
            else None
       else None;
     py_int := fun s => if text_eqb s (T "8080") then Some 8080 else None;
     session_post := fun _ _ => PostRaises (T "Connection refused") |}.

(** The same file with a port that is not a number. *)
Definition with_bad_port : Runtime :=
  {| PY2 := false; JYTHON := false; IRONPYTHON := false;
     cfg_get := fun file group key =>
       if text_eqb key (T "port") then Some (T "http") else None;
     py_int := fun _ => None;
     session_post := fun _ _ => PostRaises (T "Connection refused") |}.

(** [Connection(read_default_file="my.cnf", defer_connect=True)] *)
Definition file_args : InitArgs :=
  {| arg_dsn := None; arg_host := None; arg_port := 0; arg_key := None;
     arg_database := None; arg_https_pem := None;
     arg_read_default_file := Some (T "my.cnf"); arg_use_unicode := None;
     arg_cursorclass := Cursor; arg_init_command := None;
     arg_connect_timeout := Some (NumInt 10); arg_read_default_group := None;
     arg_autocommit := Some false; arg_defer_connect := true;
     arg_read_timeout := None; arg_write_timeout := None |}.

(** [Connection(host="10.0.0.1", port=9000, https_pem="c.pem", key="k.pem",
    read_default_file="my.cnf", defer_connect=True)] *)
Definition explicit_args : InitArgs :=
  {| arg_dsn := None; arg_host := Some (T "10.0.0.1"); arg_port := 9000;
     arg_key := Some (T "k.pem");
     arg_database := None; arg_https_pem := Some (T "c.pem");
     arg_read_default_file := Some (T "my.cnf"); arg_use_unicode := None;
     arg_cursorclass := Cursor; arg_init_command := None;
     arg_connect_timeout := Some (NumInt 10); arg_read_default_group := None;
     arg_autocommit := Some false; arg_defer_connect := true;
     arg_read_timeout := Some (NumInt 30); arg_write_timeout := None |}.

(** [Connection(read_default_file="my.cnf", connect_timeout=0)] *)
Definition bad_port_args : InitArgs :=
  {| arg_dsn := None; arg_host := None; arg_port := 0; arg_key := None;
     arg_database := None; arg_https_pem := None;
     arg_read_default_file := Some (T "my.cnf");
     arg_use_unicode := None; arg_cursorclass := Cursor;
     arg_init_command := None; arg_connect_timeout := Some (NumInt 0);
     arg_read_default_group := None; arg_autocommit := Some false;
     arg_defer_connect := false; arg_read_timeout := None;
     arg_write_timeout := None |}.

End MoreSamples.

(** A result as [read] can leave it on a fresh object: the fields that
    are declared and never assigned have their initial values, and the row
    count agrees with the rows. *)
Definition well_formed_result (r : CovenantSQLResult) : Prop :=
  insert_id r = None /\ warning_count r = 0 /\ message r = None
  /\ field_count r = 0 /\ description r = None /\ has_next r = None
  /\ ((rows r = None /\ affected_rows r = None)
      \/ exists rs,
           rows r = Some rs
           /\ affected_rows r = Some (Z.of_nat (List.length rs))).

(** The stored result, when there is one, is well formed and its row
    count is the connection's. *)
Definition result_invariant (c : Connection) : Prop :=
  forall r,
    _result c = Some r ->
    well_formed_result r /\ _affected_rows c = affected_rows r.

(** The socket marker is set exactly when the connection was opened and
    not closed since. *)
Definition lifecycle_invariant (c : Connection) : Prop :=
  (_sock c = Some true /\ _closed c = Some false)
  \/ (_sock c = None /\ (_closed c = None \/ _closed c = Some true)).

(* ===================================================================== *)
(** ** Bytes: lowering, stripping and the select prefix *)
(* ===================================================================== *)

Ltac each_byte a := destruct a as [[] [] [] [] [] [] [] []].

Lemma all_bytes_complete (a : ascii) : In a all_bytes.
Proof.
  unfold all_bytes. rewrite <- (ascii_nat_embedding a).
  apply in_map, in_seq. pose proof (nat_ascii_bounded a). lia.
Qed.

Lemma for_all_byte_pairs (P : ascii -> ascii -> bool) :
  forallb (fun x => forallb (P x) all_bytes) all_bytes = true ->
  forall x y, P x y = true.
Proof.
  intros H x y.
  rewrite forallb_forall in H. specialize (H x (all_bytes_complete x)).
  rewrite forallb_forall in H. exact (H y (all_bytes_complete y)).
Qed.

Lemma is_space_whitespace (a : ascii) : is_space a = is_whitespace a.
Proof. each_byte a; reflexivity. Qed.

Lemma is_space_lower_byte (a : ascii) : is_space (lower_byte a) = is_space a.
Proof. each_byte a; reflexivity. Qed.

Lemma lstrip_trim (b : bytes) : lstrip b = trim_leading_whitespace b.
Proof.
  induction b as [|a b IH]; simpl; [reflexivity|].
  rewrite is_space_whitespace, IH. reflexivity.
Qed.

Lemma lstrip_lower (b : bytes) : lstrip (lower b) = lower (lstrip b).
Proof.
  induction b as [|a b IH]; simpl; [reflexivity|].
  rewrite is_space_lower_byte.
  destruct (is_space a); [exact IH | reflexivity].
Qed.

(** A lower-case letter of the pattern matches a byte case-insensitively
    exactly when it equals the lowered byte. *)
Lemma same_letter_lower (x y : ascii) :
  lower_byte x = x -> same_letter x y = Ascii.eqb x (lower_byte y).
Proof.
  intros Hx.
  pose proof (for_all_byte_pairs
    (fun x y => implb (Ascii.eqb (lower_byte x) x)
                  (Bool.eqb (same_letter x y) (Ascii.eqb x (lower_byte y)))))
    as H.
  specialize (H ltac:(vm_compute; reflexivity) x y). cbv beta in H.
  rewrite Hx, Ascii.eqb_refl in H. simpl in H.
  apply Bool.eqb_prop in H. exact H.
Qed.

Lemma prefix_lower_nocase (p b : bytes) :
  lower p = p -> String.prefix p (lower b) = has_prefix_nocase p b.
Proof.
  revert b; induction p as [|x p IH]; intros b Hp.
  - destruct b; reflexivity.
  - simpl in Hp. injection Hp as Hx Hp'.
    destruct b as [|y b]; simpl; [reflexivity|].
    rewrite (same_letter_lower x y Hx).
    destruct (ascii_dec x (lower_byte y)) as [E|E].
    + rewrite E, Ascii.eqb_refl. simpl. apply IH, Hp'.
    + apply Ascii.eqb_neq in E. rewrite E. reflexivity.
Qed.

(** The test of the source is the rule of the specification. *)
Lemma startswith_select (b : bytes) :
  startswith (lstrip (lower b)) "select" = is_select_command b.
Proof.
  unfold startswith, is_select_command.
  rewrite lstrip_lower, <- lstrip_trim.
  apply prefix_lower_nocase. reflexivity.
Qed.

Example select_leading_blanks : is_select_command "  SELECT 1" = true.
Proof. reflexivity. Qed.

Example select_mixed_case :
  is_select_command (String "009" (String "010" "SeLeCt * from t")) = true.
Proof. reflexivity. Qed.

Example insert_is_not_select :
  is_select_command "insert into t values (1)" = false.
Proof. reflexivity. Qed.

Example select_inside_is_not_select :
  is_select_command "explain select 1" = false.
Proof. reflexivity. Qed.

(* ===================================================================== *)
(** ** Frames: what a method leaves alone *)
(* ===================================================================== *)

Section Frames.

Variable rt : Runtime.
Context {X : Type} (f : Connection -> X).

Lemma preserves_ret {A} (a : A) : preserves f (ret a).
Proof. intros st. reflexivity. Qed.

Lemma preserves_raise {A} (e : exn) : preserves f (@raise A e).
Proof. intros st. reflexivity. Qed.

Lemma preserves_lift {A} (o : outcome A) : preserves f (lift o).
Proof. intros st. reflexivity. Qed.

Lemma preserves_get_self : preserves f get_self.
Proof. intros st. reflexivity. Qed.

Lemma preserves_post u data : preserves f (post rt u data).
Proof. intros st. reflexivity. Qed.

Lemma preserves_assign (g : Connection -> Connection) :
  (forall c, f (g c) = f c) -> preserves f (assign g).
Proof. intros H st. simpl. apply H. Qed.

Lemma preserves_bind {A B} (m : M A) (k : A -> M B) :
  preserves f m -> (forall a, preserves f (k a)) -> preserves f (bind m k).
Proof.
  intros Hm Hk st. unfold bind.
  specialize (Hm st). destruct (m st) as [st' [a|e]]; simpl in *.
  - rewrite Hk. exact Hm.
  - exact Hm.
Qed.

End Frames.

Ltac frame_step :=
  match goal with
  | |- preserves _ (ret _) => apply preserves_ret
  | |- preserves _ (raise _) => apply preserves_raise
  | |- preserves _ (lift _) => apply preserves_lift
  | |- preserves _ get_self => apply preserves_get_self
  | |- preserves _ (post _ _ _) => apply preserves_post
  | |- preserves _ (assign _) =>
      apply preserves_assign; solve [auto | intros []; reflexivity]
  | |- preserves _ (bind _ _) => apply preserves_bind; [| intro]
  | |- preserves _ (match ?x with _ => _ end) => destruct x
  | |- preserves _ (if ?x then _ else _) => destruct x
  end.

Ltac frame := repeat frame_step.

(** An attribute that a setter does not assign. *)
Ltac attr := intros ? []; reflexivity.

Section MethodFrames.

Variable rt : Runtime.
Context {X : Type} (f : Connection -> X).

Hypothesis f_resp : forall v c, f (set_resp v c) = f c.
Hypothesis f_resp_json : forall v c, f (set_resp_json v c) = f c.
Hypothesis f_server_status : forall v c, f (set_server_status v c) = f c.

Lemma dispatch_preserves c b : preserves f (dispatch rt c b).
Proof. unfold dispatch. frame. Qed.

Lemma _execute_command_preserves sql : preserves f (_execute_command rt sql).
Proof. unfold _execute_command. frame; apply dispatch_preserves. Qed.

Lemma _read_ok_packet_preserves : preserves f _read_ok_packet.
Proof. unfold _read_ok_packet. frame. Qed.

Lemma commit_preserves : preserves f (commit rt).
Proof.
  unfold commit. frame;
    auto using _execute_command_preserves, _read_ok_packet_preserves.
Qed.

Lemma rollback_preserves : preserves f (rollback rt).
Proof.
  unfold rollback. frame;
    auto using _execute_command_preserves, _read_ok_packet_preserves.
Qed.

Lemma cursor_preserves o : preserves f (cursor o).
Proof. unfold cursor. frame. Qed.

Hypothesis f_result : forall v c, f (set_result v c) = f c.

Lemma _read_query_result_preserves : preserves f _read_query_result.
Proof.
  unfold _read_query_result. frame; auto using _read_ok_packet_preserves.
Qed.

Hypothesis f_affected : forall v c, f (set_affected v c) = f c.

Lemma query_preserves sql : preserves f (query rt sql).
Proof.
  unfold query. frame;
    auto using _execute_command_preserves, _read_query_result_preserves.
Qed.

Hypothesis f_sock : forall v c, f (set_sock v c) = f c.
Hypothesis f_closed : forall v c, f (set_closed v c) = f c.

Lemma connect_preserves : preserves f (connect rt).
Proof.
  unfold connect. frame;
    auto using _execute_command_preserves, _read_ok_packet_preserves.
Qed.

Lemma close_preserves : preserves f close.
Proof. unfold close. frame. Qed.

Lemma invoke_preserves k st : f (self (fst (invoke rt k st))) = f (self st).
Proof.
  destruct k as [| | | |sql|o]; simpl.
  - pose proof (connect_preserves st) as H.
    destruct (connect rt st) as [st' [a|e]]; exact H.
  - pose proof (close_preserves st) as H.
    destruct (close st) as [st' [a|e]]; exact H.
  - pose proof (commit_preserves st) as H.
    destruct (commit rt st) as [st' [a|e]]; exact H.
  - pose proof (rollback_preserves st) as H.
    destruct (rollback rt st) as [st' [a|e]]; exact H.
  - pose proof (query_preserves sql st) as H.
    destruct (query rt sql st) as [st' [a|e]]; exact H.
  - pose proof (cursor_preserves o st) as H.
    destruct (cursor o st) as [st' [a|e]]; exact H.
Qed.

Lemma run_preserves ks st : f (self (run rt ks st)) = f (self st).
Proof.
  revert st; induction ks as [|k ks IH]; intros st; simpl; [reflexivity|].
  rewrite IH. apply invoke_preserves.
Qed.

End MethodFrames.

(* ===================================================================== *)
(** ** Dispatch *)
(* ===================================================================== *)

Lemma connect_endpoints rt st :
  endpoints_ok (self st) -> endpoints_ok (self (fst (connect rt st))).
Proof.
  unfold endpoints_ok.
  rewrite !(connect_preserves rt _query_uri), !(connect_preserves rt _exec_uri),
    !(connect_preserves rt host), !(connect_preserves rt port);
    solve [trivial | attr].
Qed.

Lemma init_endpoints rt a w0 w1 c0 :
  __init__ rt a w0 = (w1, Return c0) -> endpoints_ok c0.
Proof.
  unfold __init__. intros H.
  destruct (read_config rt a) as [f|e]; [|discriminate H].
  destruct (check_timeouts rt a) as [[]|e]; [|discriminate H].
  destruct (arg_defer_connect a).
  - injection H as _ <-. split; reflexivity.
  - pose proof (connect_endpoints rt {| self := built rt a f; wire := w0 |})
      as Hc.
    destruct (connect rt _) as [st' [[]|e]]; [|discriminate H].
    injection H as _ <-. apply Hc. split; reflexivity.
Qed.

Lemma run_endpoints rt ks st :
  endpoints_ok (self st) -> endpoints_ok (self (run rt ks st)).
Proof.
  unfold endpoints_ok.
  rewrite !(run_preserves rt _query_uri), !(run_preserves rt _exec_uri),
    !(run_preserves rt host), !(run_preserves rt port);
    solve [trivial | attr].
Qed.

(** What [dispatch] puts on the wire for the command bytes [b]. *)
Lemma dispatch_request rt c b st :
  dispatch rt c b st =
  ({| self := self st; wire := wire st ++ [request_of c b] |},
   Return (session_post rt (wire st) (request_of c b))).
Proof.
  unfold dispatch, request_of. rewrite startswith_select.
  destruct (is_select_command b); reflexivity.
Qed.

(* ===================================================================== *)
(** ** Commands step by step *)
(* ===================================================================== *)

Lemma state_eta (st : state) : {| self := self st; wire := wire st |} = st.
Proof. destruct st; reflexivity. Qed.

Lemma set_resp_None_id (c : Connection) :
  _resp c = None -> set_resp None c = c.
Proof. destruct c; simpl; intros ->; reflexivity. Qed.

(** [_execute_command], case by case. *)
Lemma _execute_command_unfold rt sql st :
  _execute_command rt sql st =
  if closed (self st) then (st, Raise closed_error) else
  match command_bytes rt sql with
  | Raise e => (st, Raise e)
  | Return b =>
      let c := set_resp None (self st) in
      let req := request_of (self st) b in
      let w := wire st ++ [req] in
      match session_post rt (wire st) req with
      | PostRaises error =>
          ({| self := c; wire := w |},
           Raise (Exn InterfaceError [JStr (T "Request proxy err: " ++ error)]))
      | PostReturns resp =>
          match body_json resp with
          | Some j =>
              ({| self := set_resp_json (Some j) (set_resp (Some resp) c);
                  wire := w |}, Return tt)
          | None =>
              ({| self := set_resp (Some resp) c; wire := w |},
               Raise (Exn InterfaceError
                        [JStr (T "Proxy return invalid data");
                         JStr (reason resp)]))
          end
      end
  end.
Proof.
  unfold _execute_command, bind, get_self, lift, raise.
  destruct (closed (self st)); [reflexivity|].
  destruct (command_bytes rt sql) as [b|e]; [|reflexivity].
  assert (Hdrop :
    (match _resp (self st) with
     | Some _ => assign (set_resp None)
     | None => ret tt
     end) st = ({| self := set_resp None (self st); wire := wire st |},
                Return tt)).
  { destruct (_resp (self st)) eqn:E; [reflexivity|].
    unfold ret. rewrite (set_resp_None_id _ E), state_eta. reflexivity. }
  rewrite Hdrop, dispatch_request. simpl.
  destruct (session_post rt (wire st) (request_of (self st) b))
    as [error|resp]; [reflexivity|].
  unfold assign. simpl. destruct (body_json resp); reflexivity.
Qed.

(** [_read_ok_packet], case by case. *)
Lemma _read_ok_packet_unfold st :
  _read_ok_packet st =
  match _resp_json (self st) with
  | None => (st, Raise (Exn AttributeError []))
  | Some envelope =>
      match subscript envelope (T "success") with
      | Raise e => (st, Raise e)
      | Return success =>
          let st' := {| self := set_server_status (Some success) (self st);
                        wire := wire st |} in
          if truthy success then
            match _resp (self st) with
            | None => (st', Raise (Exn AttributeError []))
            | Some resp =>
                if ok resp then (st', Return success)
                else (st', Raise (Exn OperationalError
                                   [JStr (T "Proxy return false");
                                    JStr (reason resp)]))
            end
          else
            match subscript envelope (T "status") with
            | Raise e => (st', Raise e)
            | Return detail =>
                (st', Raise (Exn OperationalError
                               [JStr (T "Syntax error"); detail]))
            end
      end
  end.
Proof.
  unfold _read_ok_packet, bind, get_self, lift, assign, ret, raise. simpl.
  destruct (_resp_json (self st)) as [envelope|]; [|reflexivity].
  destruct (subscript envelope (T "success")) as [success|e]; [|reflexivity].
  destruct (truthy success); simpl.
  - destruct (self st); simpl.
    match goal with |- context [match ?r with Some _ => _ | None => _ end] =>
      destruct r as [resp|] end; [|reflexivity].
    destruct (ok resp); reflexivity.
  - destruct (subscript envelope (T "status")); reflexivity.
Qed.

(** Validation looks at [_resp_json] and [_resp] only: clearing the stored
    result first does not change what it does. *)
Lemma _read_ok_packet_after_set_result v st :
  _read_ok_packet {| self := set_result v (self st); wire := wire st |} =
  ({| self := set_result v (self (fst (_read_ok_packet st)));
      wire := wire (fst (_read_ok_packet st)) |},
   snd (_read_ok_packet st)).
Proof.
  rewrite !_read_ok_packet_unfold.
  destruct st as [c w]; destruct c; simpl.
  repeat match goal with
         | |- context [match ?x with _ => _ end] => destruct x; simpl
         end; reflexivity.
Qed.

(** [_read_query_result], case by case. *)
Lemma _read_query_result_unfold st :
  _read_query_result st =
  match _read_ok_packet {| self := set_result None (self st);
                           wire := wire st |} with
  | (st1, Raise e) => (st1, Raise e)
  | (st1, Return _) =>
      match read (self st1) CovenantSQLResult__init__ with
      | (_, Raise e) => (st1, Raise e)
      | (result, Return _) =>
          ({| self := set_result (Some result) (self st1);
              wire := wire st1 |}, Return (affected_rows result))
      end
  end.
Proof.
  unfold _read_query_result, bind, assign, get_self, raise, ret. simpl.
  destruct (_read_ok_packet _) as [st1 [v|e]]; [|reflexivity].
  destruct (read (self st1) CovenantSQLResult__init__) as [result [[]|e]];
    reflexivity.
Qed.

(** [query], step by step. *)
Lemma query_unfold rt sql st :
  query rt sql st =
  match query_arg rt sql with
  | Raise e => (st, Raise e)
  | Return sql' =>
      match _execute_command rt sql' st with
      | (st1, Raise e) => (st1, Raise e)
      | (st1, Return _) =>
          match _read_query_result st1 with
          | (st2, Raise e) => (st2, Raise e)
          | (st2, Return n) =>
              ({| self := set_affected n (self st2); wire := wire st2 |},
               Return n)
          end
      end
  end.
Proof.
  unfold query, bind, lift, assign, ret.
  destruct (query_arg rt sql) as [sql'|e]; [|reflexivity].
  destruct (_execute_command rt sql' st) as [st1 [[]|e]]; [|reflexivity].
  destruct (_read_query_result st1) as [st2 [n|e]]; reflexivity.
Qed.

Lemma _read_ok_packet_wire st : wire (fst (_read_ok_packet st)) = wire st.
Proof.
  rewrite _read_ok_packet_unfold.
  repeat match goal with
         | |- context [match ?x with _ => _ end] => destruct x; simpl
         | |- context [if ?x then _ else _] => destruct x; simpl
         end; reflexivity.
Qed.

Lemma _read_query_result_wire st :
  wire (fst (_read_query_result st)) = wire st.
Proof.
  rewrite _read_query_result_unfold.
  pose proof (_read_ok_packet_wire
                {| self := set_result None (self st); wire := wire st |}) as H.
  destruct (_read_ok_packet _) as [st1 [v|e]]; simpl in *; [|exact H].
  destruct (read (self st1) CovenantSQLResult__init__) as [r [[]|e]];
    exact H.
Qed.

Lemma _execute_command_sends rt sql b st :
  closed (self st) = false ->
  command_bytes rt sql = Return b ->
  wire (fst (_execute_command rt sql st))
  = wire st ++ [request_of (self st) b].
Proof.
  intros Hc Hb. rewrite _execute_command_unfold, Hc, Hb. cbv zeta.
  destruct (session_post rt (wire st) (request_of (self st) b))
    as [error|resp]; [reflexivity|].
  destruct (body_json resp); reflexivity.
Qed.


(** C1.  On a connection made by the constructor, after any calls, the
    dispatch step sends the command bytes, with the fields database and
    query, to https://{host}:{port}/v1/query when the bytes, leading
    whitespace trimmed, begin with select compared case-insensitively, and to
    https://{host}:{port}/v1/exec for every other command, host and port
    being the connection's and the port written in decimal; this is the one
    request a command on a connection that is not closed puts on the wire. *)
Theorem dispatch_routes_by_select_prefix :
  forall rt a w0 w1 c0 ks,
    __init__ rt a w0 = (w1, Return c0) ->
    let st := run rt ks {| self := c0; wire := w1 |} in
    forall b : bytes,
      let req :=
        {| uri := T "https://" ++ host (self st) ++ T ":"
                    ++ str_of_int (port (self st))
                    ++ T (if is_select_command b then "/v1/query"
                          else "/v1/exec");
           form_database := database (self st);
           form_query := b |} in
      dispatch rt (self st) b st =
        ({| self := self st; wire := wire st ++ [req] |},
         Return (session_post rt (wire st) req))
      /\ (forall sql,
            closed (self st) = false ->
            command_bytes rt sql = Return b ->
            wire (fst (_execute_command rt sql st)) = wire st ++ [req]).
Proof.
  intros rt a w0 w1 c0 ks Hinit st b req.
  assert (Hep : endpoints_ok (self st)).
  { apply run_endpoints. simpl. exact (init_endpoints _ _ _ _ _ Hinit). }
  destruct Hep as [Hq He].
  assert (Hreq : request_of (self st) b = req).
  { unfold request_of, req. rewrite Hq, He. unfold endpoint.
    destruct (is_select_command b); reflexivity. }
  split.
  - rewrite dispatch_request, Hreq. reflexivity.
  - intros sql Hc Hb. rewrite (_execute_command_sends rt sql b st Hc Hb).
    rewrite Hreq. reflexivity.
Qed.

(** C1 at the two commands the specification names, on
    [Connection(host="10.0.0.1", port=9000, database="db0")] and on a
    connection made with the defaults: ["  SELECT 1"] goes to the query
    endpoint and ["insert into t values (1)"] to the exec endpoint. *)
Lemma dispatch_routes_witness :
  (exists w1 c0,
     __init__ (Samples.answering (Samples.response_200 Samples.envelope_exec))
              Samples.remote_args [] = (w1, Return c0)
     /\ wire (fst (_execute_command
                     (Samples.answering
                        (Samples.response_200 Samples.envelope_exec))
                     (SqlText (T "  SELECT 1")) {| self := c0; wire := w1 |}))
        = w1 ++ [ {| uri := T "https://10.0.0.1:9000/v1/query";
                     form_database := Some (T "db0");
                     form_query := "  SELECT 1" |} ]
     /\ wire (fst (_execute_command
                     (Samples.answering
                        (Samples.response_200 Samples.envelope_exec))
                     (SqlBytes "insert into t values (1)")
                     {| self := c0; wire := w1 |}))
        = w1 ++ [ {| uri := T "https://10.0.0.1:9000/v1/exec";
                     form_database := Some (T "db0");
                     form_query := "insert into t values (1)" |} ])
  /\ (exists w1 c0,
        __init__ (Samples.answering
                    (Samples.response_200 Samples.envelope_exec))
                 default_args [] = (w1, Return c0)
        /\ wire (fst (_execute_command
                        (Samples.answering
                           (Samples.response_200 Samples.envelope_exec))
                        (SqlText (T "  SELECT 1"))
                        {| self := c0; wire := w1 |}))
           = w1 ++ [ {| uri := T "https://localhost:11108/v1/query";
                        form_database := None;
                        form_query := "  SELECT 1" |} ]
        /\ wire (fst (_execute_command
                        (Samples.answering
                           (Samples.response_200 Samples.envelope_exec))
                        (SqlBytes "insert into t values (1)")
                        {| self := c0; wire := w1 |}))
           = w1 ++ [ {| uri := T "https://localhost:11108/v1/exec";
                        form_database := None;
                        form_query := "insert into t values (1)" |} ]).
Proof.
  split.
  - eexists _, _. split; [vm_compute; reflexivity|]. split.
    + exact (proj2 (dispatch_routes_by_select_prefix
                      (Samples.answering
                         (Samples.response_200 Samples.envelope_exec))
                      Samples.remote_args [] _ _ [] eq_refl "  SELECT 1")
                   (SqlText (T "  SELECT 1")) eq_refl eq_refl).
    + exact (proj2 (dispatch_routes_by_select_prefix
                      (Samples.answering
                         (Samples.response_200 Samples.envelope_exec))
                      Samples.remote_args [] _ _ [] eq_refl
                      "insert into t values (1)")
                   (SqlBytes "insert into t values (1)") eq_refl eq_refl).
  - eexists _, _. split; [vm_compute; reflexivity|]. split.
    + exact (proj2 (dispatch_routes_by_select_prefix
                      (Samples.answering
                         (Samples.response_200 Samples.envelope_exec))
                      default_args [] _ _ [] eq_refl "  SELECT 1")
                   (SqlText (T "  SELECT 1")) eq_refl eq_refl).
    + exact (proj2 (dispatch_routes_by_select_prefix
                      (Samples.answering
                         (Samples.response_200 Samples.envelope_exec))
                      default_args [] _ _ [] eq_refl
                      "insert into t values (1)")
                   (SqlBytes "insert into t values (1)") eq_refl eq_refl).
Defined.

(* ===================================================================== *)
(** ** Validation *)
(* ===================================================================== *)

(** C2.  Validation of the envelope [envelope]: when its success member is
    false it raises an operational error whose arguments are the message
    ["Syntax error"] and the envelope's status; when success is true and the
    transport status is not ok it raises an operational error whose
    arguments are ["Proxy return false"] and the transport's reason phrase;
    and it returns only when success is true and the transport status is
    ok. *)
Theorem read_ok_packet_needs_both_checks :
  forall st envelope success,
    _resp_json (self st) = Some envelope ->
    subscript envelope (T "success") = Return success ->
    (truthy success = false ->
     forall status,
       subscript envelope (T "status") = Return status ->
       snd (_read_ok_packet st) =
       Raise (Exn OperationalError [JStr (T "Syntax error"); status]))
    /\ (truthy success = true ->
        forall resp,
          _resp (self st) = Some resp ->
          snd (_read_ok_packet st) =
          if ok resp then Return success
          else Raise (Exn OperationalError
                        [JStr (T "Proxy return false");
                         JStr (reason resp)]))
    /\ (forall v,
          snd (_read_ok_packet st) = Return v ->
          truthy success = true
          /\ exists resp, _resp (self st) = Some resp /\ ok resp = true).
Proof.
  intros st envelope success Henv Hs.
  rewrite _read_ok_packet_unfold, Henv, Hs. cbv zeta.
  repeat split.
  - intros Hf status Hst. rewrite Hf, Hst. reflexivity.
  - intros Ht resp Hr. rewrite Ht, Hr. destruct (ok resp); reflexivity.
  - destruct (truthy success); [reflexivity|].
    destruct (subscript envelope (T "status")); discriminate H.
  - destruct (truthy success).
    + destruct (_resp (self st)) as [resp|]; [|discriminate H].
      exists resp. split; [reflexivity|].
      destruct (ok resp); [reflexivity | discriminate H].
    + destruct (subscript envelope (T "status")); discriminate H.
Qed.

(** C2 at the envelope [{"success": false, "status": "syntax error"}], and
    at a success envelope that came with a 500 status. *)
Lemma read_ok_packet_witness :
  snd (_read_ok_packet
         (Samples.holding (Samples.response_200 Samples.envelope_error)
                          Samples.envelope_error))
  = Raise (Exn OperationalError
             [JStr (T "Syntax error"); JStr (T "syntax error")])
  /\ snd (_read_ok_packet
            (Samples.holding (Samples.response_500 Samples.envelope_exec)
                             Samples.envelope_exec))
     = Raise (Exn OperationalError
                [JStr (T "Proxy return false");
                 JStr (T "Internal Server Error")]).
Proof.
  split.
  - exact (proj1 (read_ok_packet_needs_both_checks
                    (Samples.holding
                       (Samples.response_200 Samples.envelope_error)
                       Samples.envelope_error)
                    Samples.envelope_error (JBool false) eq_refl eq_refl)
                 eq_refl (JStr (T "syntax error")) eq_refl).
  - exact (proj1 (proj2 (read_ok_packet_needs_both_checks
                           (Samples.holding
                              (Samples.response_500 Samples.envelope_exec)
                              Samples.envelope_exec)
                           Samples.envelope_exec (JBool true)
                           eq_refl eq_refl))
                 eq_refl (Samples.response_500 Samples.envelope_exec)
                 eq_refl).
Defined.

(* ===================================================================== *)
(** ** The result materializer *)
(* ===================================================================== *)

Lemma append_columns_app (columns row : list json) :
  append_columns columns row = row ++ columns.
Proof.
  revert row; induction columns as [|column rest IH]; intros row; simpl.
  - symmetry. apply app_nil_r.
  - rewrite IH, <- app_assoc. reflexivity.
Qed.

Lemma append_lines_arrays (lines rows : list (list json)) :
  append_lines (map JArr lines) rows = Return (rows ++ lines).
Proof.
  revert rows; induction lines as [|line rest IH]; intros rows; simpl.
  - rewrite app_nil_r. reflexivity.
  - rewrite IH, append_columns_app, <- app_assoc. reflexivity.
Qed.

(** C3.  When the data member of the envelope holds a rows array of arrays,
    [read] stores one tuple per entry of the array, each with the entry's
    columns in their order, the tuples in the order of the entries, and sets
    the row count to the number of tuples. *)
Theorem read_materializes_rows :
  forall c r envelope data (lines : list (list json)),
    _resp_json c = Some envelope ->
    subscript envelope (T "data") = Return data ->
    subscript data (T "rows") = Return (JArr (map JArr lines)) ->
    read c r =
    (set_rows (Some lines)
       (set_affected_rows (Some (Z.of_nat (List.length lines))) r),
     Return tt).
Proof.
  intros c r envelope data lines Henv Hdata Hrows.
  unfold read, resp_json_data. rewrite Henv, Hdata.
  destruct data; try discriminate Hrows.
  rewrite Hrows. simpl. rewrite length_map, append_lines_arrays.
  reflexivity.
Qed.

(** C3 at [{"success": true, "data": {"rows": [[1, "a"], [2, "b"]]}}]: the
    row count is 2 and the rows are ((1, "a"), (2, "b")). *)
Lemma read_materializes_rows_witness :
  let r := fst (read (self (Samples.holding
                              (Samples.response_200 Samples.envelope_rows)
                              Samples.envelope_rows))
                     CovenantSQLResult__init__) in
  affected_rows r = Some 2
  /\ rows r = Some [ [JInt 1; JStr (T "a")]; [JInt 2; JStr (T "b")] ].
Proof.
  cbv zeta.
  rewrite (read_materializes_rows
             (self (Samples.holding
                      (Samples.response_200 Samples.envelope_rows)
                      Samples.envelope_rows))
             CovenantSQLResult__init__ Samples.envelope_rows
             (JObj [ (T "rows",
                      JArr [ JArr [JInt 1; JStr (T "a")];
                             JArr [JInt 2; JStr (T "b")] ]) ])
             [ [JInt 1; JStr (T "a")]; [JInt 2; JStr (T "b")] ]
             eq_refl eq_refl eq_refl).
  split; reflexivity.
Defined.

(* ===================================================================== *)
(** ** close *)
(* ===================================================================== *)

(** C7.  [close()] on a connection that is not closed releases the transport
    handle and sets the closed flag; on a closed connection it raises
    [Error("Already closed")] and changes nothing. *)
Theorem close_requires_not_closed :
  forall st,
    (closed (self st) = false ->
     exists st',
       close st = (st', Return tt)
       /\ closed (self st') = true
       /\ _sock (self st') = None
       /\ wire st' = wire st)
    /\ (closed (self st) = true ->
        close st = (st, Raise (Exn Error [JStr (T "Already closed")]))).
Proof.
  intros st. unfold close, bind, get_self. split; intros H; rewrite H.
  - eexists. split; [reflexivity|]. simpl.
    destruct (self st); repeat split; reflexivity.
  - reflexivity.
Qed.

(** C7 on an open connection, and on the connection [close()] just left. *)
Lemma close_requires_not_closed_witness :
  (exists st',
     close Samples.opened = (st', Return tt)
     /\ closed (self st') = true
     /\ _sock (self st') = None
     /\ wire st' = wire Samples.opened)
  /\ close Samples.shut
     = (Samples.shut, Raise (Exn Error [JStr (T "Already closed")])).
Proof.
  split.
  - exact (proj1 (close_requires_not_closed Samples.opened) eq_refl).
  - exact (proj2 (close_requires_not_closed Samples.shut) eq_refl).
Defined.

(* ===================================================================== *)
(** ** Exec-style commands *)
(* ===================================================================== *)

(** C8.  When the command was dispatched, the envelope passes validation
    and its data member is null, [read] leaves the rows and the row count of
    the fresh result unset, and [query] returns normally, with that unset
    count, having stored the result. *)
Theorem query_of_null_data_returns_unset_count :
  forall rt sql sql' st st1 success,
    query_arg rt sql = Return sql' ->
    _execute_command rt sql' st = (st1, Return tt) ->
    snd (_read_ok_packet st1) = Return success ->
    resp_json_data (self st1) = Return JNull ->
    read (self st1) CovenantSQLResult__init__ =
      (CovenantSQLResult__init__, Return tt)
    /\ rows CovenantSQLResult__init__ = None
    /\ affected_rows CovenantSQLResult__init__ = None
    /\ exists st',
         query rt sql st = (st', Return None)
         /\ _result (self st') = Some CovenantSQLResult__init__
         /\ _affected_rows (self st') = None.
Proof.
  intros rt sql sql' st st1 success Harg Hexec Hok Hdata.
  assert (Hread : forall c, resp_json_data c = Return JNull ->
            read c CovenantSQLResult__init__ =
            (CovenantSQLResult__init__, Return tt)).
  { intros c Hc. unfold read. rewrite Hc. reflexivity. }
  split; [apply Hread, Hdata|]. split; [reflexivity|]. split; [reflexivity|].
  rewrite query_unfold, Harg, Hexec, _read_query_result_unfold,
    _read_ok_packet_after_set_result, Hok.
  rewrite Hread.
  - eexists. split; [reflexivity|]. simpl.
    destruct (self (fst (_read_ok_packet st1))); split; reflexivity.
  - simpl. rewrite <- Hdata. unfold resp_json_data.
    assert (E : forall v c, _resp_json (set_result v c) = _resp_json c)
      by attr.
    rewrite E, (_read_ok_packet_preserves _resp_json); [reflexivity | attr].
Qed.

(** C8 at [{"success": true, "data": null}], answered to an insert. *)
Lemma query_of_null_data_witness :
  exists st',
    query (Samples.answering (Samples.response_200 Samples.envelope_exec))
          (SqlText (T "insert into t values (1)")) Samples.opened
    = (st', Return None)
    /\ _result (self st') = Some CovenantSQLResult__init__
    /\ _affected_rows (self st') = None.
Proof.
  exact (proj2 (proj2 (proj2
    (query_of_null_data_returns_unset_count
       (Samples.answering (Samples.response_200 Samples.envelope_exec))
       (SqlText (T "insert into t values (1)"))
       (SqlBytes "insert into t values (1)")
       Samples.opened
       (fst (_execute_command
               (Samples.answering (Samples.response_200 Samples.envelope_exec))
               (SqlBytes "insert into t values (1)") Samples.opened))
       (JBool true) eq_refl eq_refl eq_refl eq_refl)))).
Defined.

(* ===================================================================== *)
(** ** What a failed command leaves behind *)
(* ===================================================================== *)

(** When [_read_query_result] raises, the state is the one validation left,
    run after the stored result was cleared. *)
Lemma _read_query_result_raises st st' e :
  _read_query_result st = (st', Raise e) ->
  st' = fst (_read_ok_packet {| self := set_result None (self st);
                                wire := wire st |}).
Proof.
  rewrite _read_query_result_unfold.
  destruct (_read_ok_packet _) as [st1 [v|e1]]; simpl.
  - destruct (read (self st1) CovenantSQLResult__init__) as [r [[]|e2]];
      intros H; inversion H; reflexivity.
  - intros H; inversion H; reflexivity.
Qed.

(** The claim C4 as it is stated fails: on a connection that holds the two
    rows of an earlier select, a query that is dispatched and then rejected by
    validation ([{"success": false, "status": "syntax error"}]) leaves no
    stored result at all. *)
Lemma failed_query_destroys_prior_result :
  let rt := Samples.answering (Samples.response_200 Samples.envelope_error) in
  let out := query rt (SqlBytes "select * from t") Samples.after_select in
  _result (self Samples.after_select) = Some Samples.two_rows
  /\ wire (fst out) =
     [ {| uri := T "https://localhost:11108/v1/query";
          form_database := None;
          form_query := "select * from t" |} ]
  /\ snd out =
     Raise (Exn OperationalError
              [JStr (T "Syntax error"); JStr (T "syntax error")])
  /\ _result (self (fst out)) = None
  /\ _result (self (fst out)) <> _result (self Samples.after_select).
Proof.
  cbv zeta. repeat split; try (vm_compute; reflexivity).
  vm_compute. discriminate.
Qed.

(** C4, amended.  A [query] that fails after its dispatch returned, in
    validation or in [read], leaves the stored result cleared, whatever it
    was, and the last row count, the closed flag, the response and the wire
    as dispatch left them; a [commit] or [rollback] that fails leaves the
    stored result and the last row count untouched; and the previous
    response is dropped before the request is sent, so that nothing is held
    when the transport fails. *)
Theorem failed_command_frame :
  forall rt st,
    (forall sql sql' st1 st' e,
       query_arg rt sql = Return sql' ->
       _execute_command rt sql' st = (st1, Return tt) ->
       query rt sql st = (st', Raise e) ->
       _result (self st') = None
       /\ _affected_rows (self st') = _affected_rows (self st)
       /\ closed (self st') = closed (self st)
       /\ _resp (self st') = _resp (self st1)
       /\ wire st' = wire st1)
    /\ (forall st' e,
          commit rt st = (st', Raise e) ->
          _result (self st') = _result (self st)
          /\ _affected_rows (self st') = _affected_rows (self st))
    /\ (forall st' e,
          rollback rt st = (st', Raise e) ->
          _result (self st') = _result (self st)
          /\ _affected_rows (self st') = _affected_rows (self st))
    /\ (forall sql b error,
          closed (self st) = false ->
          command_bytes rt sql = Return b ->
          session_post rt (wire st) (request_of (self st) b)
            = PostRaises error ->
          _resp (self (fst (_execute_command rt sql st))) = None).
Proof.
  intros rt st. repeat apply conj.
  - intros sql sql' st1 st' e Harg Hexec Hq.
    rewrite query_unfold, Harg, Hexec in Hq.
    destruct (_read_query_result st1) as [st2 [n|e2]] eqn:Hr;
      [discriminate Hq|].
    injection Hq as <- <-.
    apply _read_query_result_raises in Hr. subst st2.
    assert (H1 : st1 = fst (_execute_command rt sql' st))
      by (rewrite Hexec; reflexivity).
    set (st0 := {| self := set_result None (self st1); wire := wire st1 |}).
    repeat apply conj.
    + rewrite (_read_ok_packet_preserves _result); [|attr].
      simpl. destruct (self st1); reflexivity.
    + rewrite (_read_ok_packet_preserves _affected_rows); [|attr].
      change (_affected_rows (set_result None (self st1))
              = _affected_rows (self st)).
      replace (_affected_rows (set_result None (self st1)))
        with (_affected_rows (self st1)) by (destruct (self st1); reflexivity).
      rewrite H1. apply _execute_command_preserves; attr.
    + rewrite (_read_ok_packet_preserves closed); [|attr].
      change (closed (set_result None (self st1)) = closed (self st)).
      replace (closed (set_result None (self st1)))
        with (closed (self st1)) by (destruct (self st1); reflexivity).
      rewrite H1. apply _execute_command_preserves; attr.
    + rewrite (_read_ok_packet_preserves _resp); [|attr].
      simpl. destruct (self st1); reflexivity.
    + rewrite _read_ok_packet_wire. reflexivity.
  - intros st' e H.
    assert (E : st' = fst (commit rt st)) by (rewrite H; reflexivity).
    subst st'. split; apply commit_preserves; attr.
  - intros st' e H.
    assert (E : st' = fst (rollback rt st)) by (rewrite H; reflexivity).
    subst st'. split; apply rollback_preserves; attr.
  - intros sql b error Hc Hb Hpost.
    rewrite _execute_command_unfold, Hc, Hb. cbv zeta. rewrite Hpost.
    simpl. destruct (self st); reflexivity.
Qed.

(** C4, amended, at the rejected query above and at a [commit] that is
    rejected the same way. *)
Lemma failed_command_frame_witness :
  let rt := Samples.answering (Samples.response_200 Samples.envelope_error) in
  _result (self (fst (query rt (SqlBytes "select * from t")
                            Samples.after_select))) = None
  /\ _result (self (fst (commit rt Samples.after_select)))
     = Some Samples.two_rows.
Proof.
  cbv zeta. split.
  - exact (proj1 (proj1
      (failed_command_frame
         (Samples.answering (Samples.response_200 Samples.envelope_error))
         Samples.after_select)
      (SqlBytes "select * from t") (SqlBytes "select * from t")
      (fst (_execute_command
              (Samples.answering (Samples.response_200 Samples.envelope_error))
              (SqlBytes "select * from t") Samples.after_select))
      (fst (query
              (Samples.answering (Samples.response_200 Samples.envelope_error))
              (SqlBytes "select * from t") Samples.after_select))
      (Exn OperationalError
         [JStr (T "Syntax error"); JStr (T "syntax error")])
      eq_refl eq_refl eq_refl)).
  - exact (proj1 (proj1 (proj2
      (failed_command_frame
         (Samples.answering (Samples.response_200 Samples.envelope_error))
         Samples.after_select))
      (fst (commit
              (Samples.answering (Samples.response_200 Samples.envelope_error))
              Samples.after_select))
      (Exn OperationalError
         [JStr (T "Syntax error"); JStr (T "syntax error")])
      eq_refl)).
Defined.

(* ===================================================================== *)
(** ** The closed flag *)
(* ===================================================================== *)

(** On a closed connection [_execute_command] stops at the check. *)
Lemma _execute_command_closed rt sql st :
  closed (self st) = true ->
  _execute_command rt sql st = (st, Raise closed_error).
Proof. intros H. rewrite _execute_command_unfold, H. reflexivity. Qed.

Lemma commit_closed rt st :
  closed (self st) = true -> commit rt st = (st, Raise closed_error).
Proof.
  intros H. unfold commit, bind. rewrite (_execute_command_closed _ _ _ H).
  reflexivity.
Qed.

Lemma rollback_closed rt st :
  closed (self st) = true -> rollback rt st = (st, Raise closed_error).
Proof.
  intros H. unfold rollback, bind. rewrite (_execute_command_closed _ _ _ H).
  reflexivity.
Qed.

Lemma query_closed rt sql st :
  closed (self st) = true ->
  query rt sql st =
  match query_arg rt sql with
  | Return _ => (st, Raise closed_error)
  | Raise e => (st, Raise e)
  end.
Proof.
  intros H. rewrite query_unfold.
  destruct (query_arg rt sql) as [sql'|e]; [|reflexivity].
  rewrite (_execute_command_closed _ _ _ H). reflexivity.
Qed.

Lemma cursor_state o st : fst (cursor o st) = st.
Proof. destruct o; reflexivity. Qed.

(** [connect] leaves the closed flag set to false, however the probe ends. *)
Lemma connect_not_closed rt st : _closed (self (fst (connect rt st))) = Some false.
Proof.
  unfold connect.
  set (rest := bind (assign (set_sock (Some true))) _).
  unfold bind at 1. simpl.
  set (st1 := {| self := set_closed (Some false) (self st); wire := wire st |}).
  assert (Hrest : preserves _closed rest).
  { unfold rest. frame;
      [apply _execute_command_preserves | apply _read_ok_packet_preserves];
      attr. }
  specialize (Hrest st1).
  destruct (rest st1) as [st2 [[]|e]]; simpl in *;
    rewrite Hrest; unfold st1; simpl; destruct (self st); reflexivity.
Qed.

(** The claim C5 as it is stated fails: a connection is made, closed, and
    opened again; [connect] takes it out of the closed state. *)
Lemma connect_leaves_closed_state :
  let rt := Samples.answering (Samples.response_200 Samples.envelope_exec) in
  exists w c,
    __init__ rt default_args [] = (w, Return c)
    /\ let st1 := fst (invoke rt Close {| self := c; wire := w |}) in
       closed (self st1) = true
       /\ closed (self (fst (invoke rt Connect st1))) = false.
Proof.
  cbv zeta. eexists _, _. split; [vm_compute; reflexivity|].
  split; vm_compute; reflexivity.
Qed.

(** C5, amended.  Once the closed flag is set, [close], [commit],
    [rollback], [query] and [cursor] leave the connection as it is, closed;
    [connect] alone resets the flag, to false, also when its probe fails. *)
Theorem closed_state_left_only_by_connect :
  forall rt st,
    closed (self st) = true ->
    (forall k, k <> Connect ->
       fst (invoke rt k st) = st
       /\ closed (self (fst (invoke rt k st))) = true)
    /\ closed (self (fst (invoke rt Connect st))) = false.
Proof.
  intros rt st H. split.
  - intros k Hk.
    assert (E : fst (invoke rt k st) = st).
    { destruct k as [| | | |sql|o]; simpl.
      - congruence.
      - unfold close, bind, get_self. rewrite H. reflexivity.
      - rewrite (commit_closed _ _ H). reflexivity.
      - rewrite (rollback_closed _ _ H). reflexivity.
      - rewrite (query_closed _ _ _ H).
        destruct (query_arg rt sql); reflexivity.
      - pose proof (cursor_state o st) as Hc.
        destruct (cursor o st) as [st' [x|e]]; exact Hc. }
    rewrite E. split; [reflexivity | exact H].
  - simpl. pose proof (connect_not_closed rt st) as Hc.
    unfold closed.
    destruct (connect rt st) as [st' [[]|e]]; simpl in *; rewrite Hc;
      reflexivity.
Qed.

(** C5, amended, on a closed connection: a [commit] leaves it closed, a
    [connect] against a transport that refuses the connection reopens it. *)
Lemma closed_state_witness :
  closed (self (fst (invoke Samples.unreachable Commit Samples.shut))) = true
  /\ closed (self (fst (invoke Samples.unreachable Connect Samples.shut)))
     = false.
Proof.
  split.
  - refine (proj2 (proj1 (closed_state_left_only_by_connect
                            Samples.unreachable Samples.shut eq_refl)
                         Commit _)).
    discriminate.
  - exact (proj2 (closed_state_left_only_by_connect
                    Samples.unreachable Samples.shut eq_refl)).
Defined.







(* ===================================================================== *)
(** ** What can be raised *)
(* ===================================================================== *)



Lemma subscript_raises v k e :
  subscript v k = Raise e -> exn_cls e = KeyError \/ exn_cls e = TypeError.
Proof.
  destruct v; simpl; intros H; try (injection H as <-; right; reflexivity).
  destruct (dict_get members k); [discriminate H|].
  injection H as <-. left. reflexivity.
Qed.

Lemma len_raises v e : len v = Raise e -> exn_cls e = TypeError.
Proof. destruct v; simpl; intros H; inversion H; reflexivity. Qed.

Lemma iter_raises v e : iter v = Raise e -> exn_cls e = TypeError.
Proof. destruct v; simpl; intros H; inversion H; reflexivity. Qed.

Lemma append_lines_raises lines rows e :
  append_lines lines rows = Raise e -> exn_cls e = TypeError.
Proof.
  revert rows; induction lines as [|line rest IH]; intros rows; simpl.
  - discriminate.
  - destruct (iter line) as [columns|e'] eqn:E.
    + apply IH.
    + intros H. injection H as <-. exact (iter_raises _ _ E).
Qed.








(** A literal of the source always has bytes: itself. *)
Lemma literal_bytes rt (s : string) :
  (s = "select 1;" \/ s = "COMMIT" \/ s = "ROLLBACK")%string ->
  command_bytes rt (literal rt s) = Return s.
Proof.
  unfold literal, command_bytes, encode_strict.
  intros [->|[->| ->]]; destruct (PY2 rt); reflexivity.
Qed.


(* ===================================================================== *)
(** ** Construction *)
(* ===================================================================== *)

Lemma int_lt_above k x : int_lt k x = true <-> above k x.
Proof.
  destruct x as [z|q|negative|]; simpl.
  - apply Z.ltb_lt.
  - rewrite negb_true_iff. split.
    + intros H. apply Qnot_le_lt. intros Hle.
      apply Qle_bool_iff in Hle. congruence.
    + intros H. destruct (Qle_bool q (inject_Z k)) eqn:E; [|reflexivity].
      apply Qle_bool_iff in E. exfalso. exact (Qlt_not_le _ _ H E).
  - destruct negative; simpl; split; congruence.
  - split; [discriminate | contradiction].
Qed.

Lemma le_int_at_most x k : le_int x k = true <-> at_most k x.
Proof.
  destruct x as [z|q|negative|]; simpl.
  - apply Z.leb_le.
  - apply Qle_bool_iff.
  - reflexivity.
  - split; [discriminate | contradiction].
Qed.

Lemma le_int_not_at_most x k : le_int x k = false <-> ~ at_most k x.
Proof.
  rewrite <- le_int_at_most. destruct (le_int x k); split; congruence.
Qed.

(** The timeout checks pass exactly on good timeouts. *)
Lemma check_timeouts_good rt a :
  good_timeouts a -> check_timeouts rt a = Return tt.
Proof.
  unfold good_timeouts, check_timeouts.
  intros [(t & -> & H1 & H2) [Hr Hw]].
  apply int_lt_above in H1. apply le_int_at_most in H2.
  rewrite H1, H2. simpl.
  destruct (arg_read_timeout a) as [r|].
  - rewrite (proj2 (le_int_not_at_most r 0) (Hr r eq_refl)).
    destruct (arg_write_timeout a) as [u|]; [|reflexivity].
    rewrite (proj2 (le_int_not_at_most u 0) (Hw u eq_refl)). reflexivity.
  - destruct (arg_write_timeout a) as [u|]; [|reflexivity].
    rewrite (proj2 (le_int_not_at_most u 0) (Hw u eq_refl)). reflexivity.
Qed.







(* ===================================================================== *)
(** ** A connection that was never opened *)
(* ===================================================================== *)

Lemma commit_sends rt st :
  closed (self st) = false ->
  wire (fst (commit rt st)) = wire st ++ [request_of (self st) "COMMIT"].
Proof.
  intros Hc. unfold commit, bind.
  pose proof (_execute_command_sends rt (literal rt "COMMIT") "COMMIT" st Hc
                (literal_bytes rt "COMMIT" ltac:(auto))) as H.
  destruct (_execute_command rt (literal rt "COMMIT") st) as [st1 [[]|e]];
    simpl in H; [|exact H].
  pose proof (_read_ok_packet_wire st1) as H1.
  destruct (_read_ok_packet st1) as [st2 [v|e]]; simpl in *; congruence.
Qed.

Lemma rollback_sends rt st :
  closed (self st) = false ->
  wire (fst (rollback rt st)) = wire st ++ [request_of (self st) "ROLLBACK"].
Proof.
  intros Hc. unfold rollback, bind.
  pose proof (_execute_command_sends rt (literal rt "ROLLBACK") "ROLLBACK" st
                Hc (literal_bytes rt "ROLLBACK" ltac:(auto))) as H.
  destruct (_execute_command rt (literal rt "ROLLBACK") st) as [st1 [[]|e]];
    simpl in H; [|exact H].
  pose proof (_read_ok_packet_wire st1) as H1.
  destruct (_read_ok_packet st1) as [st2 [v|e]]; simpl in *; congruence.
Qed.







(* ===================================================================== *)
(** ** More on the routing test *)
(* ===================================================================== *)

Lemma lstrip_split (b : bytes) :
  exists ws, b = (ws ++ lstrip b)%string /\ all_space ws = true.
Proof.
  induction b as [|a b [ws [E H]]]; simpl.
  - exists EmptyString. split; reflexivity.
  - destruct (is_space a) eqn:Ha.
    + exists (String a ws). simpl. rewrite Ha, H, <- E. split; reflexivity.
    + exists EmptyString. split; reflexivity.
Qed.

Lemma lstrip_app_space (ws b : bytes) :
  all_space ws = true -> lstrip (ws ++ b)%string = lstrip b.
Proof.
  induction ws as [|a ws IH]; simpl; [reflexivity|].
  intros H. apply andb_true_iff in H. destruct H as [Ha Hws].
  rewrite Ha. apply IH, Hws.
Qed.

Lemma lower_app (p q : bytes) :
  lower (p ++ q)%string = (lower p ++ lower q)%string.
Proof. induction p as [|a p IH]; simpl; [|rewrite IH]; reflexivity. Qed.

Lemma prefix_app (p q : bytes) : String.prefix p (p ++ q)%string = true.
Proof.
  induction p as [|a p IH]; simpl; [destruct q; reflexivity|].
  destruct (ascii_dec a a) as [_|N]; [exact IH | congruence].
Qed.

Lemma prefix_split (p b : bytes) :
  String.prefix p (lower b) = true ->
  exists q rest, b = (q ++ rest)%string /\ lower q = p.
Proof.
  revert b; induction p as [|x p IH]; intros b H.
  - exists EmptyString, b. split; reflexivity.
  - destruct b as [|y b]; simpl in H; [discriminate H|].
    destruct (ascii_dec x (lower_byte y)) as [E|E]; [|discriminate H].
    destruct (IH b H) as [q [rest [Eb Eq]]].
    exists (String y q), rest. simpl. rewrite <- Eb, Eq, E.
    split; reflexivity.
Qed.

(** X1.  The test of [_execute_command] holds for exactly the commands
    that are some ASCII whitespace, then six bytes that lower to
    [select], then anything: [selection] passes it as well, and a command
    that opens with a comment or a parenthesis does not. *)
Theorem select_test_characterised :
  forall b : bytes,
    startswith (lstrip (lower b)) "select" = true
    <-> exists ws p rest,
          b = (ws ++ p ++ rest)%string
          /\ all_space ws = true
          /\ lower p = "select".
Proof.
  intros b. unfold startswith. rewrite lstrip_lower. split.
  - intros H. destruct (prefix_split _ _ H) as [p [rest [E Hp]]].
    destruct (lstrip_split b) as [ws [Eb Hws]].
    exists ws, p, rest. rewrite <- E. auto.
  - intros [ws [p [rest [-> [Hws Hp]]]]].
    rewrite (lstrip_app_space _ _ Hws).
    destruct p as [|x p]; [discriminate Hp|].
    simpl in Hp. injection Hp as Hx Hp'.
    assert (Hsp : is_space x = false).
    { rewrite <- is_space_lower_byte, Hx. reflexivity. }
    simpl lstrip. rewrite Hsp.
    change (String x (p ++ rest)) with (String x p ++ rest)%string.
    rewrite lower_app.
    replace (lower (String x p)) with "select".
    + apply prefix_app.
    + simpl. rewrite Hx, Hp'. reflexivity.
Qed.

(* ===================================================================== *)
(** ** Text commands and their bytes *)
(* ===================================================================== *)

Lemma encode_codepoint_scalar (c : codepoint) :
  is_scalar c = true ->
  exists bs, forall h, encode_codepoint h c = Some bs.
Proof.
  unfold is_scalar, encode_codepoint. intros H.
  apply andb_true_iff in H. destruct H as [Hmax Hsur].
  apply negb_true_iff in Hsur. rewrite Hsur, Hmax.
  destruct (c <? 128)%N; [eexists; reflexivity|].
  destruct (c <? 2048)%N; [eexists; reflexivity|].
  destruct (c <? 65536)%N; eexists; reflexivity.
Qed.

Lemma encode_points_scalar (t : text) :
  forallb is_scalar t = true ->
  exists bs, forall h, encode_points h t = Some bs.
Proof.
  induction t as [|c t IH]; simpl; intros H.
  - exists []. reflexivity.
  - apply andb_true_iff in H. destruct H as [Hc Ht].
    destruct (encode_codepoint_scalar c Hc) as [bs Hbs].
    destruct (IH Ht) as [rest Hrest].
    exists (bs ++ rest). intros h. rewrite Hbs, Hrest. reflexivity.
Qed.

(** A command reaches [_execute_command] as its bytes only. *)
Lemma _execute_command_by_bytes rt sql b st :
  command_bytes rt sql = Return b ->
  _execute_command rt sql st = _execute_command rt (SqlBytes b) st.
Proof.
  intros H. rewrite !_execute_command_unfold, H. reflexivity.
Qed.

(** X2.  Text made of Unicode scalar values always has bytes, the same
    under the three error handlers, so that on every runtime [query] and
    [_execute_command] go on with these bytes and never raise the encoding
    error for it. *)
Theorem scalar_text_always_encodes :
  forall t : text,
    forallb is_scalar t = true ->
    exists b,
      (forall h, encode h t = Return b)
      /\ (forall rt, command_bytes rt (SqlText t) = Return b)
      /\ (forall rt, exists sql',
            query_arg rt (SqlText t) = Return sql'
            /\ command_bytes rt sql' = Return b).
Proof.
  intros t Ht. destruct (encode_points_scalar t Ht) as [bs Hbs].
  exists (string_of_list_ascii bs).
  assert (He : forall h, encode h t = Return (string_of_list_ascii bs)).
  { intros h. unfold encode. rewrite Hbs. reflexivity. }
  split; [exact He|]. split.
  - intros rt. simpl. unfold encode_strict. apply He.
  - intros rt. unfold query_arg.
    destruct (negb (JYTHON rt || IRONPYTHON rt)).
    + exists (SqlBytes (string_of_list_ascii bs)).
      destruct (PY2 rt); rewrite He; split; reflexivity.
    + exists (SqlText t). split; [reflexivity|].
      simpl. unfold encode_strict. apply He.
Qed.

(** X2 on the text of a select with an accent, a euro sign and an
    emoji. *)
Lemma scalar_text_always_encodes_witness :
  exists b,
    (forall h, encode h (T "select '" ++ [233; 8364; 128512]%N ++ T "'")
               = Return b)
    /\ (forall rt, command_bytes rt
                     (SqlText (T "select '" ++ [233; 8364; 128512]%N ++ T "'"))
                   = Return b).
Proof.
  destruct (scalar_text_always_encodes
              (T "select '" ++ [233; 8364; 128512]%N ++ T "'") eq_refl)
    as [b [H1 [H2 _]]].
  exists b. split; assumption.
Defined.

(** X3.  A command given as text behaves exactly like the bytes it is
    encoded to, given as bytes: same requests, same exception or value,
    same state. *)
Theorem query_text_as_its_bytes :
  forall rt sql sql' b st,
    query_arg rt sql = Return sql' ->
    command_bytes rt sql' = Return b ->
    query rt sql st = query rt (SqlBytes b) st.
Proof.
  intros rt sql sql' b st Ha Hb.
  rewrite !query_unfold, Ha. simpl.
  rewrite (_execute_command_by_bytes rt sql' b st Hb). reflexivity.
Qed.

(** X3 on a text whose U+DC80 stands for the byte 0x80, which
    ['surrogateescape'] restores. *)
Lemma query_text_as_its_bytes_witness :
  query (Samples.answering (Samples.response_200 Samples.envelope_exec))
        (SqlText [120; 56448]%N) Samples.opened
  = query (Samples.answering (Samples.response_200 Samples.envelope_exec))
          (SqlBytes (String "x" (String "128" EmptyString))) Samples.opened.
Proof.
  exact (query_text_as_its_bytes
           (Samples.answering (Samples.response_200 Samples.envelope_exec))
           (SqlText [120; 56448]%N)
           (SqlBytes (String "x" (String "128" EmptyString)))
           (String "x" (String "128" EmptyString))
           Samples.opened eq_refl eq_refl).
Defined.

Lemma encode_points_ascii (h : surrogates) (s : string) :
  all_ascii s = true ->
  encode_points h (T s) = Some (list_ascii_of_string s).
Proof.
  induction s as [|a s IH]; simpl; intros H; [reflexivity|].
  apply andb_true_iff in H. destruct H as [Ha Hs].
  unfold lit in IH. rewrite (IH Hs).
  unfold encode_codepoint, byte_of. rewrite Ha, ascii_N_embedding.
  reflexivity.
Qed.

(** X4.  ASCII text goes on the wire byte for byte: on every runtime a
    query of the text is the query of the same bytes. *)
Theorem ascii_text_sent_verbatim :
  forall rt (s : string) st,
    all_ascii s = true ->
    (forall h, encode h (T s) = Return s)
    /\ query rt (SqlText (T s)) st = query rt (SqlBytes s) st.
Proof.
  intros rt s st Hs.
  assert (He : forall h, encode h (T s) = Return s).
  { intros h. unfold encode. rewrite (encode_points_ascii h s Hs).
    rewrite string_of_list_ascii_of_string. reflexivity. }
  split; [exact He|].
  rewrite !query_unfold. unfold query_arg.
  destruct (negb (JYTHON rt || IRONPYTHON rt)).
  - destruct (PY2 rt); rewrite He; reflexivity.
  - apply f_equal with (f := fun x =>
      match x with
      | (st1, Return _) =>
          match _read_query_result st1 with
          | (st2, Return n) =>
              ({| self := set_affected n (self st2); wire := wire st2 |},
               Return n)
          | (st2, Raise e) => (st2, Raise e)
          end
      | (st1, Raise e) => (st1, Raise e)
      end).
    apply _execute_command_by_bytes. simpl. unfold encode_strict. apply He.
Qed.

(** X4 on [insert into t values (1)]. *)
Lemma ascii_text_sent_verbatim_witness :
  query Samples.unreachable (SqlText (T "insert into t values (1)"))
        Samples.opened
  = query Samples.unreachable (SqlBytes "insert into t values (1)")
          Samples.opened.
Proof.
  exact (proj2 (ascii_text_sent_verbatim Samples.unreachable
                  "insert into t values (1)" Samples.opened eq_refl)).
Defined.

(** X5.  On Jython and IronPython [query] hands text on as it is, so
    that on a closed connection every query, whatever its argument, raises
    [InterfaceError("Connection closed")] and nothing else happens. *)
Theorem closed_query_without_early_encoding :
  forall rt sql st,
    (JYTHON rt || IRONPYTHON rt) = true ->
    closed (self st) = true ->
    query rt sql st = (st, Raise closed_error).
Proof.
  intros rt sql st Hj Hc. rewrite (query_closed _ _ _ Hc).
  unfold query_arg. rewrite Hj. destruct sql; reflexivity.
Qed.

(** X5 on Jython, with the text that CPython 3 cannot encode. *)
Lemma closed_query_without_early_encoding_witness :
  query MoreSamples.jython (SqlText Samples.lone_surrogate) Samples.shut
  = (Samples.shut, Raise closed_error).
Proof.
  exact (closed_query_without_early_encoding MoreSamples.jython
           (SqlText Samples.lone_surrogate) Samples.shut eq_refl eq_refl).
Defined.

(* ===================================================================== *)
(** ** Failures of the transport *)
(* ===================================================================== *)

Lemma set_resp_twice v w c : set_resp v (set_resp w c) = set_resp v c.
Proof. destruct c; reflexivity. Qed.

(** X6.  When the transport raises, the query raises
    [InterfaceError("Request proxy err: ...")] with the transport's message;
    one request was sent, no response is held, and everything else, the
    decoded envelope of the command before, the server status, the stored
    result and the row count, is as it was: validation is not reached. *)
Theorem transport_failure_is_interface_error :
  forall rt sql sql' b st error,
    closed (self st) = false ->
    query_arg rt sql = Return sql' ->
    command_bytes rt sql' = Return b ->
    session_post rt (wire st) (request_of (self st) b) = PostRaises error ->
    query rt sql st =
    ({| self := set_resp None (self st);
        wire := wire st ++ [request_of (self st) b] |},
     Raise (Exn InterfaceError [JStr (T "Request proxy err: " ++ error)])).
Proof.
  intros rt sql sql' b st error Hc Ha Hb Hp.
  rewrite query_unfold, Ha, _execute_command_unfold, Hc, Hb. cbv zeta.
  rewrite Hp. reflexivity.
Qed.

(** X6 against a transport that refuses the connection. *)
Lemma transport_failure_witness :
  query Samples.unreachable (SqlText (T "select 1")) Samples.after_select
  = ({| self := set_resp None (self Samples.after_select);
        wire := [ request_of (self Samples.after_select) "select 1" ] |},
     Raise (Exn InterfaceError
              [JStr (T "Request proxy err: Connection refused")])).
Proof.
  exact (transport_failure_is_interface_error Samples.unreachable
           (SqlText (T "select 1")) (SqlBytes "select 1") "select 1"
           Samples.after_select (T "Connection refused")
           eq_refl eq_refl eq_refl eq_refl).
Defined.

(** X7.  When the body of the response is not JSON, the query raises
    an [InterfaceError] whose arguments are the message
    ["Proxy return invalid data"] and the reason phrase of the response; the
    connection holds the new response, but its decoded envelope is still the
    one of the command before. *)
Theorem undecodable_body_keeps_old_envelope :
  forall rt sql sql' b st resp,
    closed (self st) = false ->
    query_arg rt sql = Return sql' ->
    command_bytes rt sql' = Return b ->
    session_post rt (wire st) (request_of (self st) b) = PostReturns resp ->
    body_json resp = None ->
    query rt sql st =
      ({| self := set_resp (Some resp) (self st);
          wire := wire st ++ [request_of (self st) b] |},
       Raise (Exn InterfaceError
                [JStr (T "Proxy return invalid data");
                 JStr (reason resp)]))
    /\ _resp_json (self (fst (query rt sql st))) = _resp_json (self st)
    /\ _resp (self (fst (query rt sql st))) = Some resp.
Proof.
  intros rt sql sql' b st resp Hc Ha Hb Hp Hj.
  assert (E : query rt sql st =
    ({| self := set_resp (Some resp) (self st);
        wire := wire st ++ [request_of (self st) b] |},
     Raise (Exn InterfaceError
              [JStr (T "Proxy return invalid data");
               JStr (reason resp)]))).
  { rewrite query_unfold, Ha, _execute_command_unfold, Hc, Hb. cbv zeta.
    rewrite Hp, Hj, set_resp_twice. reflexivity. }
  rewrite E. simpl. destruct (self st); repeat split; reflexivity.
Qed.

(** X7 on a connection that holds the rows of an earlier select, with a
    transport that answers 502 Bad Gateway and no JSON. *)
Lemma undecodable_body_witness :
  snd (query MoreSamples.garbling (SqlBytes "select 1") Samples.after_select)
  = Raise (Exn InterfaceError
             [JStr (T "Proxy return invalid data"); JStr (T "Bad Gateway")])
  /\ _resp_json (self (fst (query MoreSamples.garbling (SqlBytes "select 1")
                                  Samples.after_select)))
     = Some Samples.envelope_rows.
Proof.
  pose proof (undecodable_body_keeps_old_envelope
                MoreSamples.garbling (SqlBytes "select 1")
                (SqlBytes "select 1") "select 1" Samples.after_select
                {| ok := false; reason := T "Bad Gateway";
                   body_json := None |}
                eq_refl eq_refl eq_refl eq_refl eq_refl) as (H1 & H2 & _).
  split; [rewrite H1; reflexivity | exact H2].
Defined.

(* ===================================================================== *)
(** ** Validation of envelopes that lack a member *)
(* ===================================================================== *)

(** X8.  Validation does not guard its lookups: an envelope that is an
    object without a success member raises [KeyError("success")], one that
    is not an object raises [TypeError], both with the connection
    unchanged; and an envelope whose success is false but that has no
    status member raises [KeyError("status")] instead of the operational
    error, after the server status was recorded. *)
Theorem validation_of_incomplete_envelope :
  forall st envelope,
    _resp_json (self st) = Some envelope ->
    (forall members,
       envelope = JObj members ->
       dict_get members (T "success") = None ->
       _read_ok_packet st = (st, Raise (Exn KeyError [JStr (T "success")])))
    /\ ((forall members, envelope <> JObj members) ->
        _read_ok_packet st = (st, Raise (Exn TypeError [])))
    /\ (forall members success,
          envelope = JObj members ->
          dict_get members (T "success") = Some success ->
          truthy success = false ->
          dict_get members (T "status") = None ->
          _read_ok_packet st =
          ({| self := set_server_status (Some success) (self st);
              wire := wire st |},
           Raise (Exn KeyError [JStr (T "status")]))).
Proof.
  intros st envelope He. rewrite _read_ok_packet_unfold, He.
  repeat apply conj.
  - intros members -> Hs. simpl. rewrite Hs. reflexivity.
  - intros Hn. destruct envelope; try reflexivity.
    exfalso. exact (Hn _ eq_refl).
  - intros members success -> Hs Hf Hst. simpl. rewrite Hs. cbv zeta.
    rewrite Hf, Hst. reflexivity.
Qed.

(** X8 at [{"data": null}], at a body that is the number 1, and at
    [{"success": false}]. *)
Lemma validation_of_incomplete_envelope_witness :
  snd (_read_ok_packet
         (Samples.holding (Samples.response_200 MoreSamples.envelope_no_success)
                          MoreSamples.envelope_no_success))
  = Raise (Exn KeyError [JStr (T "success")])
  /\ snd (_read_ok_packet
            (Samples.holding (Samples.response_200 (JInt 1)) (JInt 1)))
     = Raise (Exn TypeError [])
  /\ snd (_read_ok_packet
            (Samples.holding
               (Samples.response_200 MoreSamples.envelope_no_status)
               MoreSamples.envelope_no_status))
     = Raise (Exn KeyError [JStr (T "status")]).
Proof.
  repeat apply conj.
  - rewrite (proj1 (validation_of_incomplete_envelope
                      (Samples.holding
                         (Samples.response_200 MoreSamples.envelope_no_success)
                         MoreSamples.envelope_no_success)
                      MoreSamples.envelope_no_success eq_refl)
                   _ eq_refl eq_refl).
    reflexivity.
  - rewrite (proj1 (proj2 (validation_of_incomplete_envelope
                      (Samples.holding (Samples.response_200 (JInt 1))
                                       (JInt 1))
                      (JInt 1) eq_refl))).
    + reflexivity.
    + intros members H. discriminate H.
  - rewrite (proj2 (proj2 (validation_of_incomplete_envelope
                      (Samples.holding
                         (Samples.response_200 MoreSamples.envelope_no_status)
                         MoreSamples.envelope_no_status)
                      MoreSamples.envelope_no_status eq_refl))
                   _ (JBool false) eq_refl eq_refl eq_refl eq_refl).
    reflexivity.
Defined.

(* ===================================================================== *)
(** ** Commands that only validate: commit, rollback, connect *)
(* ===================================================================== *)

Lemma get_set_resp_json v c : _resp_json (set_resp_json v c) = v.
Proof. destruct c; reflexivity. Qed.

Lemma get_resp_set_resp_json v c : _resp (set_resp_json v c) = _resp c.
Proof. destruct c; reflexivity. Qed.

Lemma get_set_resp v c : _resp (set_resp v c) = v.
Proof. destruct c; reflexivity. Qed.

(** A command followed by validation returns exactly when the transport
    answers it with a valid envelope. *)
Lemma command_returns_iff rt sql b st :
  closed (self st) = false ->
  command_bytes rt sql = Return b ->
  snd (bind (_execute_command rt sql)
            (fun _ => bind _read_ok_packet (fun _ => ret tt)) st) = Return tt
  <-> validates rt st b.
Proof.
  intros Hc Hb. unfold bind at 1.
  rewrite _execute_command_unfold, Hc, Hb. cbv zeta. unfold validates.
  destruct (session_post rt (wire st) (request_of (self st) b))
    as [error|resp] eqn:Hp.
  { split; [discriminate|].
    intros (r & e & v & H & _). discriminate H. }
  destruct (body_json resp) as [envelope|] eqn:Hj.
  2:{ split; [discriminate|].
      intros (r & e & v & H1 & H2 & _).
      injection H1 as <-. congruence. }
  unfold bind. rewrite _read_ok_packet_unfold. simpl self.
  rewrite get_set_resp_json, get_resp_set_resp_json, get_set_resp.
  destruct (subscript envelope (T "success")) as [success|e] eqn:Hs.
  2:{ split; [discriminate|].
      intros (r & e' & v & H1 & H2 & H3 & _).
      injection H1 as <-. congruence. }
  cbv zeta.
  destruct (truthy success) eqn:Ht.
  - destruct (ok resp) eqn:Hok; simpl.
    + split; [|reflexivity]. intros _.
      exists resp, envelope, success. auto.
    + split; [discriminate|].
      intros (r & e' & v & H1 & H2 & H3 & H4 & H5).
      injection H1 as <-. congruence.
  - split.
    + destruct (subscript envelope (T "status")); discriminate.
    + intros (r & e' & v & H1 & H2 & H3 & H4 & H5).
      injection H1 as <-. congruence.
Qed.

(** X9.  On a connection that is not closed, [commit] and [rollback]
    send the bytes [COMMIT] and [ROLLBACK] to the exec endpoint, and return
    normally exactly when the transport answers with an ok status and a
    body whose success member is truthy; the envelope's data is not looked
    at. *)
Theorem commit_and_rollback_validate_only :
  forall rt st,
    closed (self st) = false ->
    wire (fst (commit rt st)) =
      wire st ++ [ {| uri := _exec_uri (self st);
                      form_database := database (self st);
                      form_query := "COMMIT" |} ]
    /\ (snd (commit rt st) = Return tt <-> validates rt st "COMMIT")
    /\ wire (fst (rollback rt st)) =
         wire st ++ [ {| uri := _exec_uri (self st);
                         form_database := database (self st);
                         form_query := "ROLLBACK" |} ]
    /\ (snd (rollback rt st) = Return tt <-> validates rt st "ROLLBACK").
Proof.
  intros rt st Hc. split; [|split; [|split]].
  - exact (commit_sends rt st Hc).
  - exact (command_returns_iff rt (literal rt "COMMIT") "COMMIT" st Hc
             (literal_bytes rt "COMMIT" ltac:(auto))).
  - exact (rollback_sends rt st Hc).
  - exact (command_returns_iff rt (literal rt "ROLLBACK") "ROLLBACK" st Hc
             (literal_bytes rt "ROLLBACK" ltac:(auto))).
Qed.

(** X9 on an open connection whose transport answers
    [{"success": true, "data": null}] with status 200. *)
Lemma commit_and_rollback_witness :
  snd (commit (Samples.answering (Samples.response_200 Samples.envelope_exec))
              Samples.opened) = Return tt
  /\ wire (fst (rollback
                  (Samples.answering
                     (Samples.response_200 Samples.envelope_exec))
                  Samples.opened))
     = [ {| uri := T "https://localhost:11108/v1/exec";
            form_database := None;
            form_query := "ROLLBACK" |} ].
Proof.
  pose proof (commit_and_rollback_validate_only
                (Samples.answering (Samples.response_200 Samples.envelope_exec))
                Samples.opened eq_refl) as (_ & Hc & Hr & _).
  split; [|exact Hr].
  apply (proj2 Hc).
  exists (Samples.response_200 Samples.envelope_exec), Samples.envelope_exec,
    (JBool true).
  repeat split; reflexivity.
Defined.

Lemma request_of_lifecycle v w c b :
  request_of (set_sock v (set_closed w c)) b = request_of c b.
Proof. destruct c; reflexivity. Qed.

(** [connect] sends the probe, whatever follows. *)
Lemma connect_sends rt st :
  wire (fst (connect rt st)) =
  wire st ++ [ {| uri := _query_uri (self st);
                  form_database := database (self st);
                  form_query := "select 1;" |} ].
Proof.
  set (st1 := {| self := set_sock (Some true)
                           (set_closed (Some false) (self st));
                 wire := wire st |}).
  assert (Hc : closed (self st1) = false)
    by (unfold st1; simpl; destruct (self st); reflexivity).
  pose proof (literal_bytes rt "select 1;" ltac:(auto)) as Hb.
  change (connect rt st) with
    (bind (_execute_command rt (literal rt "select 1;"))
          (fun _ => bind _read_ok_packet (fun _ => ret tt)) st1).
  unfold bind.
  pose proof (_execute_command_sends rt _ _ st1 Hc Hb) as Hw.
  unfold st1 at 2 3 in Hw. simpl in Hw.
  rewrite request_of_lifecycle in Hw.
  destruct (_execute_command rt (literal rt "select 1;") st1)
    as [st2 [[]|e]]; simpl in Hw; [|exact Hw].
  pose proof (_read_ok_packet_wire st2) as H2.
  destruct (_read_ok_packet st2) as [st3 [v|e]]; simpl in *;
    rewrite H2; exact Hw.
Qed.

(** [connect] returns exactly when the probe is answered with a valid
    envelope. *)
Lemma connect_returns_iff rt st :
  snd (connect rt st) = Return tt <-> validates rt st "select 1;".
Proof.
  set (st1 := {| self := set_sock (Some true)
                           (set_closed (Some false) (self st));
                 wire := wire st |}).
  assert (Hc : closed (self st1) = false)
    by (unfold st1; simpl; destruct (self st); reflexivity).
  pose proof (literal_bytes rt "select 1;" ltac:(auto)) as Hb.
  change (connect rt st) with
    (bind (_execute_command rt (literal rt "select 1;"))
          (fun _ => bind _read_ok_packet (fun _ => ret tt)) st1).
  rewrite (command_returns_iff rt _ _ st1 Hc Hb).
  unfold validates, st1. simpl. rewrite request_of_lifecycle.
  reflexivity.
Qed.

(** X10.  [connect], on any connection, closed or not, sets the closed
    flag to false and the socket marker to true, sends one request, the
    probe [select 1;] to the query endpoint, and returns normally exactly
    when the transport answers the probe with a valid envelope; the stored
    result and the row count are not touched. *)
Theorem connect_probes_query_endpoint :
  forall rt st,
    let st' := fst (connect rt st) in
    wire st' =
      wire st ++ [ {| uri := _query_uri (self st);
                      form_database := database (self st);
                      form_query := "select 1;" |} ]
    /\ closed (self st') = false
    /\ _sock (self st') = Some true
    /\ _result (self st') = _result (self st)
    /\ _affected_rows (self st') = _affected_rows (self st)
    /\ (snd (connect rt st) = Return tt <-> validates rt st "select 1;").
Proof.
  intros rt st st'.
  set (st1 := {| self := set_sock (Some true)
                           (set_closed (Some false) (self st));
                 wire := wire st |}).
  assert (Hc : closed (self st1) = false)
    by (unfold st1; simpl; destruct (self st); reflexivity).
  pose proof (literal_bytes rt "select 1;" ltac:(auto)) as Hb.
  assert (Hrun : connect rt st =
    bind (_execute_command rt (literal rt "select 1;"))
         (fun _ => bind _read_ok_packet (fun _ => ret tt)) st1)
    by reflexivity.
  assert (Hrest : forall X (f : Connection -> X),
            (forall v c, f (set_resp v c) = f c) ->
            (forall v c, f (set_resp_json v c) = f c) ->
            (forall v c, f (set_server_status v c) = f c) ->
            f (self st') = f (self st1)).
  { intros X f H1 H2 H3. unfold st'. rewrite Hrun.
    apply (preserves_bind f); [apply _execute_command_preserves; assumption|].
    intros _. apply (preserves_bind f);
      [apply _read_ok_packet_preserves; assumption|].
    intros _. apply preserves_ret. }
  split; [|split; [|split; [|split; [|split]]]].
  - exact (connect_sends rt st).
  - rewrite (Hrest _ closed); [exact Hc | attr | attr | attr].
  - rewrite (Hrest _ _sock); [|attr|attr|attr].
    unfold st1; simpl; destruct (self st); reflexivity.
  - rewrite (Hrest _ _result); [|attr|attr|attr].
    unfold st1; simpl; destruct (self st); reflexivity.
  - rewrite (Hrest _ _affected_rows); [|attr|attr|attr].
    unfold st1; simpl; destruct (self st); reflexivity.
  - exact (connect_returns_iff rt st).
Qed.

(* ===================================================================== *)
(** ** More on the result materializer *)
(* ===================================================================== *)

(** [read] looks at the decoded envelope of the connection only. *)
Lemma read_only_envelope c1 c2 r :
  _resp_json c1 = _resp_json c2 -> read c1 r = read c2 r.
Proof. intros H. unfold read, resp_json_data. rewrite H. reflexivity. Qed.

(** With a data member, what [read] raises is a [KeyError] or a
    [TypeError]. *)
Lemma read_data_raises c r r' data e :
  resp_json_data c = Return data ->
  read c r = (r', Raise e) ->
  exn_cls e = KeyError \/ exn_cls e = TypeError.
Proof.
  intros Hd. unfold read. rewrite Hd.
  assert (Hgo :
    match subscript data (T "rows") with
    | Raise e => (r, Raise e)
    | Return data_rows =>
        match len data_rows with
        | Raise e => (r, Raise e)
        | Return n =>
            let r := set_affected_rows (Some n) r in
            match iter data_rows with
            | Raise e => (r, Raise e)
            | Return lines =>
                match append_lines lines [] with
                | Raise e => (r, Raise e)
                | Return rows => (set_rows (Some rows) r, Return tt)
                end
            end
        end
    end = (r', Raise e) ->
    exn_cls e = KeyError \/ exn_cls e = TypeError).
  { destruct (subscript data (T "rows")) as [data_rows|e1] eqn:E1.
    2:{ intros H. injection H as _ <-. exact (subscript_raises _ _ _ E1). }
    destruct (len data_rows) as [n|e2] eqn:E2.
    2:{ intros H. injection H as _ <-. right. exact (len_raises _ _ E2). }
    cbv zeta.
    destruct (iter data_rows) as [lines|e3] eqn:E3.
    2:{ intros H. injection H as _ <-. right. exact (iter_raises _ _ E3). }
    destruct (append_lines lines []) as [rows|e4] eqn:E4; intros H.
    - discriminate H.
    - injection H as _ <-. right. exact (append_lines_raises _ _ _ E4). }
  destruct data; try exact Hgo. discriminate.
Qed.

(** X11.  [read] raises [InterfaceError("Unsupported response format")]
    exactly when the lookup of the data member raises: the envelope is not
    an object, or it is an object without a data member; the result object
    is left as it was.  In particular [{"success": true}] is refused, where
    [{"success": true, "data": null}] is an exec result. *)
Theorem read_refuses_envelope_without_data :
  forall c r,
    ((exists e, resp_json_data c = Raise e)
     <-> read c r =
         (r, Raise (Exn InterfaceError
                    [JStr (T "Unsupported response format")])))
    /\ (forall members,
          _resp_json c = Some (JObj members) ->
          dict_get members (T "data") = None ->
          read c r =
          (r, Raise (Exn InterfaceError
                    [JStr (T "Unsupported response format")]))).
Proof.
  intros c r. split; [split|].
  - intros [e He]. unfold read. rewrite He. reflexivity.
  - intros H. destruct (resp_json_data c) as [data|e] eqn:Hd.
    + destruct (read_data_raises _ _ _ _ _ Hd H) as [E|E]; discriminate E.
    + exists e. reflexivity.
  - intros members Hj Hd. unfold read, resp_json_data.
    rewrite Hj. simpl. rewrite Hd. reflexivity.
Qed.

(** X11 at [{"success": true}]. *)
Lemma read_refuses_envelope_without_data_witness :
  read (self (Samples.holding
                (Samples.response_200 MoreSamples.envelope_no_data)
                MoreSamples.envelope_no_data))
       CovenantSQLResult__init__
  = (CovenantSQLResult__init__,
     Raise (Exn InterfaceError
                    [JStr (T "Unsupported response format")])).
Proof.
  exact (proj2 (read_refuses_envelope_without_data
                  (self (Samples.holding
                           (Samples.response_200 MoreSamples.envelope_no_data)
                           MoreSamples.envelope_no_data))
                  CovenantSQLResult__init__)
               [ (T "success", JBool true) ] eq_refl eq_refl).
Defined.

(** X12.  A data member that is neither null nor an object with a rows
    member is not turned into a driver error: an object without rows raises
    [KeyError("rows")], and a number, a string, an array or a boolean
    raises [TypeError]; the result object is left as it was. *)
Theorem read_data_without_rows :
  forall c r data,
    resp_json_data c = Return data ->
    (forall members,
       data = JObj members ->
       dict_get members (T "rows") = None ->
       read c r = (r, Raise (Exn KeyError [JStr (T "rows")])))
    /\ (data <> JNull ->
        (forall members, data <> JObj members) ->
        read c r = (r, Raise (Exn TypeError []))).
Proof.
  intros c r data Hd. unfold read. rewrite Hd. split.
  - intros members -> Hr. simpl. rewrite Hr. reflexivity.
  - intros Hn Ho. destruct data; try reflexivity.
    + exfalso. apply Hn. reflexivity.
    + exfalso. exact (Ho _ eq_refl).
Qed.

(** X12 at [{"success": true, "data": {}}]. *)
Lemma read_data_without_rows_witness :
  read (self (Samples.holding
                (Samples.response_200 MoreSamples.envelope_no_rows)
                MoreSamples.envelope_no_rows))
       CovenantSQLResult__init__
  = (CovenantSQLResult__init__, Raise (Exn KeyError [JStr (T "rows")])).
Proof.
  exact (proj1 (read_data_without_rows
                  (self (Samples.holding
                           (Samples.response_200 MoreSamples.envelope_no_rows)
                           MoreSamples.envelope_no_rows))
                  CovenantSQLResult__init__ (JObj []) eq_refl)
               [] eq_refl eq_refl).
Defined.

Lemma len_iter v n items :
  len v = Return n -> iter v = Return items ->
  n = Z.of_nat (List.length items).
Proof.
  destruct v; simpl; intros H1 H2; try discriminate H1;
    injection H1 as <-; injection H2 as <-;
    rewrite ?length_map; reflexivity.
Qed.

Lemma append_lines_length lines rows out :
  append_lines lines rows = Return out ->
  List.length out = (List.length rows + List.length lines)%nat.
Proof.
  revert rows; induction lines as [|line rest IH]; intros rows; simpl.
  - intros H. injection H as <-. lia.
  - destruct (iter line) as [columns|e]; [|discriminate].
    intros H. rewrite (IH _ H), length_app. simpl. lia.
Qed.

(** The count [read] sets is the number of rows it stores. *)
Lemma read_count_is_number_of_rows_aux :
  forall c r,
    read c CovenantSQLResult__init__ = (r, Return tt) ->
    (rows r = None /\ affected_rows r = None)
    \/ (exists rs,
          rows r = Some rs
          /\ affected_rows r = Some (Z.of_nat (List.length rs))).
Proof.
  intros c r. unfold read.
  destruct (resp_json_data c) as [data|e]; [|discriminate].
  assert (Hgo :
    match subscript data (T "rows") with
    | Raise e => (CovenantSQLResult__init__, Raise e)
    | Return data_rows =>
        match len data_rows with
        | Raise e => (CovenantSQLResult__init__, Raise e)
        | Return n =>
            let r := set_affected_rows (Some n) CovenantSQLResult__init__ in
            match iter data_rows with
            | Raise e => (r, Raise e)
            | Return lines =>
                match append_lines lines [] with
                | Raise e => (r, Raise e)
                | Return rows => (set_rows (Some rows) r, Return tt)
                end
            end
        end
    end = (r, Return tt) ->
    exists rs,
      rows r = Some rs /\ affected_rows r = Some (Z.of_nat (List.length rs))).
  { destruct (subscript data (T "rows")) as [data_rows|e1]; [|discriminate].
    destruct (len data_rows) as [n|e2] eqn:E2; [|discriminate].
    cbv zeta.
    destruct (iter data_rows) as [lines|e3] eqn:E3; [|discriminate].
    destruct (append_lines lines []) as [rs|e4] eqn:E4; [|discriminate].
    intros H. injection H as <-. exists rs. split; [reflexivity|]. simpl.
    rewrite (len_iter _ _ _ E2 E3), (append_lines_length _ _ _ E4).
    reflexivity. }
  destruct data; try (intros H; right; exact (Hgo H)).
  intros H. injection H as <-. left. split; reflexivity.
Qed.


(** X13.  Whenever [read] returns on a fresh result, the row count agrees
    with the rows: both are unset and the data member is null, or the rows
    are set and the count is their number.  This holds for every envelope,
    also one whose rows member is a string or an object. *)
Theorem read_count_is_number_of_rows :
  forall c r,
    read c CovenantSQLResult__init__ = (r, Return tt) ->
    (resp_json_data c = Return JNull
     /\ rows r = None /\ affected_rows r = None)
    \/ (exists rs,
          rows r = Some rs
          /\ affected_rows r = Some (Z.of_nat (List.length rs))).
Proof.
  intros c r. unfold read.
  destruct (resp_json_data c) as [data|e]; [|discriminate].
  assert (Hgo :
    match subscript data (T "rows") with
    | Raise e => (CovenantSQLResult__init__, Raise e)
    | Return data_rows =>
        match len data_rows with
        | Raise e => (CovenantSQLResult__init__, Raise e)
        | Return n =>
            let r := set_affected_rows (Some n) CovenantSQLResult__init__ in
            match iter data_rows with
            | Raise e => (r, Raise e)
            | Return lines =>
                match append_lines lines [] with
                | Raise e => (r, Raise e)
                | Return rows => (set_rows (Some rows) r, Return tt)
                end
            end
        end
    end = (r, Return tt) ->
    exists rs,
      rows r = Some rs /\ affected_rows r = Some (Z.of_nat (List.length rs))).
  { destruct (subscript data (T "rows")) as [data_rows|e1]; [|discriminate].
    destruct (len data_rows) as [n|e2] eqn:E2; [|discriminate].
    cbv zeta.
    destruct (iter data_rows) as [lines|e3] eqn:E3; [|discriminate].
    destruct (append_lines lines []) as [rs|e4] eqn:E4; [|discriminate].
    intros H. injection H as <-. exists rs. split; [reflexivity|]. simpl.
    rewrite (len_iter _ _ _ E2 E3), (append_lines_length _ _ _ E4).
    reflexivity. }
  destruct data; try (intros H; right; exact (Hgo H)).
  intros H. injection H as <-. left. repeat split; reflexivity.
Qed.

(** X13 at [{"success": true, "data": {"rows": ["ab", {"k": 1}]}}]. *)
Lemma read_count_is_number_of_rows_witness :
  let r := fst (read (self (Samples.holding
                              (Samples.response_200
                                 MoreSamples.envelope_odd_rows)
                              MoreSamples.envelope_odd_rows))
                     CovenantSQLResult__init__) in
  (resp_json_data (self (Samples.holding
                           (Samples.response_200 MoreSamples.envelope_odd_rows)
                           MoreSamples.envelope_odd_rows)) = Return JNull
   /\ rows r = None /\ affected_rows r = None)
  \/ (exists rs,
        rows r = Some rs
        /\ affected_rows r = Some (Z.of_nat (List.length rs))).
Proof.
  exact (read_count_is_number_of_rows
           (self (Samples.holding
                    (Samples.response_200 MoreSamples.envelope_odd_rows)
                    MoreSamples.envelope_odd_rows))
           _ eq_refl).
Defined.

Lemma append_lines_iterates lines rows out :
  append_lines lines rows = Return out
  <-> exists rs,
        out = rows ++ rs
        /\ Forall2 (fun line row => iter line = Return row) lines rs.
Proof.
  revert rows out; induction lines as [|line rest IH]; intros rows out; simpl.
  - split.
    + intros H. injection H as <-. exists []. rewrite app_nil_r.
      split; [reflexivity | constructor].
    + intros [rs [-> H]]. inversion H. rewrite app_nil_r. reflexivity.
  - destruct (iter line) as [columns|e] eqn:E.
    + rewrite IH, append_columns_app. simpl. split.
      * intros [rs [-> H]]. exists (columns :: rs).
        rewrite <- app_assoc. split; [reflexivity|].
        constructor; assumption.
      * intros [rs [-> H]]. inversion H as [|? row ? rs' Hrow Hrest]; subst.
        rewrite E in Hrow. injection Hrow as <-.
        exists rs'. rewrite <- app_assoc. split; [reflexivity | exact Hrest].
    + split; [discriminate|].
      intros [rs [_ H]]. inversion H as [|? row ? rs' Hrow Hrest]; subst.
      rewrite E in Hrow. discriminate Hrow.
Qed.

(** X14.  The rows [read] stores are the entries of the rows member, each
    one iterated: [read] returns with the rows [rs] exactly when every
    entry iterates, in order, to the corresponding row.  An entry that is
    an array gives its items, a string its characters, an object its
    keys. *)
Theorem read_rows_are_iterated_entries :
  forall c r data data_rows lines rs,
    resp_json_data c = Return data ->
    subscript data (T "rows") = Return data_rows ->
    iter data_rows = Return lines ->
    (read c r =
       (set_rows (Some rs)
          (set_affected_rows (Some (Z.of_nat (List.length lines))) r),
        Return tt)
     <-> Forall2 (fun line row => iter line = Return row) lines rs).
Proof.
  intros c r data data_rows lines rs Hd Hr Hi.
  assert (Hlen : exists n, len data_rows = Return n
                           /\ n = Z.of_nat (List.length lines)).
  { destruct data_rows; simpl in *; try discriminate Hi;
      injection Hi as <-; eexists; split; try reflexivity;
      rewrite ?length_map; reflexivity. }
  destruct Hlen as [n [Hn ->]].
  unfold read. rewrite Hd.
  assert (Hnn : data <> JNull) by (intros ->; discriminate Hr).
  destruct data; try (exfalso; apply Hnn; reflexivity);
    rewrite Hr, Hn; cbv zeta; rewrite Hi;
    (destruct (append_lines lines []) as [out|e] eqn:Ea;
     [ apply append_lines_iterates in Ea; destruct Ea as [rs' [-> H']];
       simpl; split;
       [ intros H; injection H as <-; exact H'
       | intros H;
         assert (E : append_lines lines [] = Return rs)
           by (apply append_lines_iterates; exists rs; split;
               [reflexivity | exact H]);
         assert (E' : append_lines lines [] = Return rs')
           by (apply append_lines_iterates; exists rs'; split;
               [reflexivity | exact H']);
         rewrite E in E'; injection E' as <-; reflexivity ]
     | split;
       [ discriminate
       | intros H;
         assert (E : append_lines lines [] = Return rs)
           by (apply append_lines_iterates; exists rs; split;
               [reflexivity | exact H]);
         rewrite E in Ea; discriminate Ea ] ]).
Qed.

(** X14 at [{"success": true, "data": {"rows": ["ab", {"k": 1}]}}]: the
    rows are (("a", "b"), ("k",)). *)
Lemma read_rows_are_iterated_entries_witness :
  rows (fst (read (self (Samples.holding
                           (Samples.response_200 MoreSamples.envelope_odd_rows)
                           MoreSamples.envelope_odd_rows))
                  CovenantSQLResult__init__))
  = Some [ [JStr (T "a"); JStr (T "b")]; [JStr (T "k")] ].
Proof.
  rewrite (proj2 (read_rows_are_iterated_entries
             (self (Samples.holding
                      (Samples.response_200 MoreSamples.envelope_odd_rows)
                      MoreSamples.envelope_odd_rows))
             CovenantSQLResult__init__
             (JObj [ (T "rows",
                      JArr [ JStr (T "ab"); JObj [ (T "k", JInt 1) ] ]) ])
             (JArr [ JStr (T "ab"); JObj [ (T "k", JInt 1) ] ])
             [ JStr (T "ab"); JObj [ (T "k", JInt 1) ] ]
             [ [JStr (T "a"); JStr (T "b")]; [JStr (T "k")] ]
             eq_refl eq_refl eq_refl)).
  - reflexivity.
  - repeat constructor.
Defined.

Lemma append_lines_fails lines rows :
  Exists (fun line => forall row, iter line <> Return row) lines ->
  exists e, append_lines lines rows = Raise e /\ exn_cls e = TypeError.
Proof.
  intros H. revert rows.
  induction lines as [|line rest IH]; intros rows; [inversion H|].
  simpl. destruct (iter line) as [columns|e] eqn:E.
  - inversion H as [? ? Hl|? ? Hr]; subst.
    + exfalso. exact (Hl _ E).
    + apply IH, Hr.
  - exists e. split; [reflexivity | exact (iter_raises _ _ E)].
Qed.

(** X15.  When an entry of the rows array cannot be iterated, a number or
    a null among the rows, [read] raises [TypeError]; the result object has
    its row count set already and no rows. *)
Theorem read_row_not_iterable :
  forall c r data lines,
    resp_json_data c = Return data ->
    subscript data (T "rows") = Return (JArr lines) ->
    Exists (fun line => forall row, iter line <> Return row) lines ->
    exists e,
      read c r =
        (set_affected_rows (Some (Z.of_nat (List.length lines))) r, Raise e)
      /\ exn_cls e = TypeError
      /\ rows (fst (read c r)) = rows r.
Proof.
  intros c r data lines Hd Hr Hex.
  destruct (append_lines_fails lines [] Hex) as [e [He Hcls]].
  exists e.
  assert (E : read c r =
    (set_affected_rows (Some (Z.of_nat (List.length lines))) r, Raise e)).
  { unfold read. rewrite Hd.
    destruct data; try discriminate Hr; rewrite Hr; simpl; rewrite He;
      reflexivity. }
  rewrite E.
  split; [reflexivity | split; [exact Hcls | destruct r; reflexivity]].
Qed.

(** X15 at [{"success": true, "data": {"rows": [[1], 2]}}]. *)
Lemma read_row_not_iterable_witness :
  exists e,
    read (self (Samples.holding
                  (Samples.response_200 MoreSamples.envelope_bad_row)
                  MoreSamples.envelope_bad_row))
         CovenantSQLResult__init__
    = (set_affected_rows (Some 2) CovenantSQLResult__init__, Raise e)
    /\ exn_cls e = TypeError.
Proof.
  destruct (read_row_not_iterable
              (self (Samples.holding
                       (Samples.response_200 MoreSamples.envelope_bad_row)
                       MoreSamples.envelope_bad_row))
              CovenantSQLResult__init__
              (JObj [ (T "rows", JArr [ JArr [JInt 1]; JInt 2 ]) ])
              [ JArr [JInt 1]; JInt 2 ] eq_refl eq_refl)
    as [e [H1 [H2 _]]].
  - apply Exists_cons_tl, Exists_cons_hd. intros row H. discriminate H.
  - exists e. split; [exact H1 | exact H2].
Defined.

(* ===================================================================== *)
(** ** What holds along every sequence of calls *)
(* ===================================================================== *)

(** X16.  No method assigns a configuration attribute: after any calls
    the data source name, host, port, key, database, encoding, the two
    endpoints, the session settings, the three timeouts, the unicode flag,
    the cursor class and the autocommit mode are what they were. *)
Theorem configuration_never_changes :
  forall rt ks st,
    let c := self st in
    let c' := self (run rt ks st) in
    dsn c' = dsn c /\ host c' = host c /\ port c' = port c
    /\ key c' = key c /\ database c' = database c
    /\ encoding c' = encoding c
    /\ _query_uri c' = _query_uri c /\ _exec_uri c' = _exec_uri c
    /\ _session c' = _session c
    /\ connect_timeout c' = connect_timeout c
    /\ _read_timeout c' = _read_timeout c
    /\ _write_timeout c' = _write_timeout c
    /\ use_unicode c' = use_unicode c
    /\ cursorclass c' = cursorclass c
    /\ autocommit_mode c' = autocommit_mode c.
Proof.
  intros rt ks st c c'. unfold c, c'.
  repeat apply conj; apply run_preserves; attr.
Qed.

(** What [_execute_command] puts on the wire: nothing, or one request. *)
Lemma _execute_command_wire_cases rt sql st :
  wire (fst (_execute_command rt sql st)) = wire st
  \/ exists req, wire (fst (_execute_command rt sql st)) = wire st ++ [req].
Proof.
  rewrite _execute_command_unfold.
  destruct (closed (self st)); [left; reflexivity|].
  destruct (command_bytes rt sql) as [b|e]; [|left; reflexivity].
  right. exists (request_of (self st) b). cbv zeta.
  destruct (session_post rt (wire st) (request_of (self st) b))
    as [error|resp]; [reflexivity|].
  destruct (body_json resp); reflexivity.
Qed.

Lemma invoke_wire_cases rt k st :
  wire (fst (invoke rt k st)) = wire st
  \/ exists req, wire (fst (invoke rt k st)) = wire st ++ [req].
Proof.
  destruct k as [| | | |sql|o]; simpl.
  - right. eexists.
    pose proof (connect_sends rt st) as H.
    destruct (connect rt st) as [st' [[]|e]]; exact H.
  - left. unfold close, bind, get_self.
    destruct (closed (self st)); reflexivity.
  - unfold commit, bind.
    pose proof (_execute_command_wire_cases rt (literal rt "COMMIT") st) as H.
    destruct (_execute_command rt (literal rt "COMMIT") st)
      as [st1 [[]|e]]; simpl in *; [|exact H].
    pose proof (_read_ok_packet_wire st1) as H1.
    destruct (_read_ok_packet st1) as [st2 [v|e]]; simpl in *;
      rewrite H1; exact H.
  - unfold rollback, bind.
    pose proof (_execute_command_wire_cases rt (literal rt "ROLLBACK") st)
      as H.
    destruct (_execute_command rt (literal rt "ROLLBACK") st)
      as [st1 [[]|e]]; simpl in *; [|exact H].
    pose proof (_read_ok_packet_wire st1) as H1.
    destruct (_read_ok_packet st1) as [st2 [v|e]]; simpl in *;
      rewrite H1; exact H.
  - rewrite query_unfold.
    destruct (query_arg rt sql) as [sql'|e]; [|left; reflexivity].
    pose proof (_execute_command_wire_cases rt sql' st) as H.
    destruct (_execute_command rt sql' st) as [st1 [[]|e]]; simpl in *;
      [|exact H].
    pose proof (_read_query_result_wire st1) as H1.
    destruct (_read_query_result st1) as [st2 [n|e]]; simpl in *;
      rewrite H1; exact H.
  - left. pose proof (cursor_state o st) as H.
    destruct (cursor o st) as [st' [x|e]]; simpl in *; rewrite H;
      reflexivity.
Qed.

(** X17.  The wire is append-only and a call sends at most one request:
    each call leaves the requests sent before it in place and adds none or
    one, [close] and [cursor] add none, and a sequence of calls adds at
    most as many requests as it has calls. *)
Theorem wire_is_append_only :
  forall rt st,
    (forall k,
       wire (fst (invoke rt k st)) = wire st
       \/ exists req, wire (fst (invoke rt k st)) = wire st ++ [req])
    /\ wire (fst (invoke rt Close st)) = wire st
    /\ (forall o, wire (fst (invoke rt (MakeCursor o) st)) = wire st)
    /\ (forall ks,
          exists sent,
            wire (run rt ks st) = wire st ++ sent
            /\ (List.length sent <= List.length ks)%nat).
Proof.
  intros rt st. repeat apply conj.
  - intros k. apply invoke_wire_cases.
  - simpl. unfold close, bind, get_self.
    destruct (closed (self st)); reflexivity.
  - intros o. simpl. pose proof (cursor_state o st) as H.
    destruct (cursor o st) as [st' [x|e]]; simpl in *; rewrite H;
      reflexivity.
  - intros ks. revert st. induction ks as [|k ks IH]; intros st; simpl.
    + exists []. rewrite app_nil_r. split; [reflexivity | simpl; lia].
    + destruct (IH (fst (invoke rt k st))) as [sent [Hs Hl]].
      destruct (invoke_wire_cases rt k st) as [H|[req H]]; rewrite H in Hs.
      * exists sent. split; [exact Hs | lia].
      * exists (req :: sent). rewrite <- app_assoc in Hs.
        split; [exact Hs | simpl; lia].
Qed.

(** X18.  Only [connect] and [close] touch the life cycle: [commit],
    [rollback], [query] and [cursor] leave the closed flag and the socket
    marker as they are, whether they return or raise. *)
Theorem lifecycle_touched_only_by_connect_and_close :
  forall rt k st,
    k <> Connect -> k <> Close ->
    _closed (self (fst (invoke rt k st))) = _closed (self st)
    /\ closed (self (fst (invoke rt k st))) = closed (self st)
    /\ _sock (self (fst (invoke rt k st))) = _sock (self st).
Proof.
  intros rt k st H1 H2.
  assert (H : forall X (f : Connection -> X),
            (forall v c, f (set_resp v c) = f c) ->
            (forall v c, f (set_resp_json v c) = f c) ->
            (forall v c, f (set_server_status v c) = f c) ->
            (forall v c, f (set_result v c) = f c) ->
            (forall v c, f (set_affected v c) = f c) ->
            f (self (fst (invoke rt k st))) = f (self st)).
  { intros X f F1 F2 F3 F4 F5.
    destruct k as [| | | |sql|o]; simpl; try congruence.
    - pose proof (commit_preserves rt f F1 F2 F3 st) as H.
      destruct (commit rt st) as [st' [a|e]]; exact H.
    - pose proof (rollback_preserves rt f F1 F2 F3 st) as H.
      destruct (rollback rt st) as [st' [a|e]]; exact H.
    - pose proof (query_preserves rt f F1 F2 F3 F4 F5 sql st) as H.
      destruct (query rt sql st) as [st' [a|e]]; exact H.
    - pose proof (cursor_preserves f o st) as H.
      destruct (cursor o st) as [st' [a|e]]; exact H. }
  repeat apply conj; apply H; attr.
Qed.

(** X18 on a query that is rejected by the server. *)
Lemma lifecycle_witness :
  closed (self (fst (invoke
                       (Samples.answering
                          (Samples.response_200 Samples.envelope_error))
                       (Query (SqlBytes "select 1")) Samples.opened)))
  = false.
Proof.
  refine (proj1 (proj2 (lifecycle_touched_only_by_connect_and_close
                          (Samples.answering
                             (Samples.response_200 Samples.envelope_error))
                          (Query (SqlBytes "select 1")) Samples.opened
                          _ _))); discriminate.
Defined.

(* ===================================================================== *)
(** ** A query that returns *)
(* ===================================================================== *)

Lemma _execute_command_returns rt sql st st1 :
  _execute_command rt sql st = (st1, Return tt) ->
  closed (self st) = false
  /\ exists b resp envelope,
       command_bytes rt sql = Return b
       /\ session_post rt (wire st) (request_of (self st) b)
          = PostReturns resp
       /\ body_json resp = Some envelope
       /\ st1 = {| self := set_resp_json (Some envelope)
                             (set_resp (Some resp) (self st));
                   wire := wire st ++ [request_of (self st) b] |}.
Proof.
  rewrite _execute_command_unfold.
  destruct (closed (self st)); [discriminate|].
  destruct (command_bytes rt sql) as [b|e]; [|discriminate].
  cbv zeta.
  destruct (session_post rt (wire st) (request_of (self st) b))
    as [error|resp] eqn:Hp; [discriminate|].
  destruct (body_json resp) as [envelope|] eqn:Hj; [|discriminate].
  intros H. injection H as <-. split; [reflexivity|].
  exists b, resp, envelope. rewrite set_resp_twice.
  repeat split; assumption || reflexivity.
Qed.

Lemma _read_ok_packet_returns st st' v :
  _read_ok_packet st = (st', Return v) ->
  exists envelope resp,
    _resp_json (self st) = Some envelope
    /\ _resp (self st) = Some resp
    /\ subscript envelope (T "success") = Return v
    /\ truthy v = true
    /\ ok resp = true
    /\ st' = {| self := set_server_status (Some v) (self st);
                wire := wire st |}.
Proof.
  rewrite _read_ok_packet_unfold.
  destruct (_resp_json (self st)) as [envelope|] eqn:Hj; [|discriminate].
  destruct (subscript envelope (T "success")) as [success|e] eqn:Hs;
    [|discriminate].
  cbv zeta. destruct (truthy success) eqn:Ht.
  - destruct (_resp (self st)) as [resp|] eqn:Hr; [|discriminate].
    destruct (ok resp) eqn:Hok; [|discriminate].
    intros H. injection H as <- <-. exists envelope, resp.
    repeat split; assumption || reflexivity.
  - destruct (subscript envelope (T "status")); discriminate.
Qed.

(** X19.  Whenever [query] returns, the connection is in a consistent
    state: it was not closed, exactly one request went out, the response to
    it had an ok status and a truthy success and is the one held, decoded,
    by the connection, the server status is that success value, and the
    value returned is both the stored row count and the row count of the
    stored result. *)
Theorem query_returns_consistent_state :
  forall rt sql st st' n,
    query rt sql st = (st', Return n) ->
    closed (self st) = false
    /\ exists b resp envelope success result,
         wire st' = wire st ++ [request_of (self st) b]
         /\ session_post rt (wire st) (request_of (self st) b)
            = PostReturns resp
         /\ ok resp = true
         /\ body_json resp = Some envelope
         /\ subscript envelope (T "success") = Return success
         /\ truthy success = true
         /\ _resp (self st') = Some resp
         /\ _resp_json (self st') = Some envelope
         /\ server_status (self st') = Some success
         /\ _result (self st') = Some result
         /\ affected_rows result = n
         /\ _affected_rows (self st') = n.
Proof.
  intros rt sql st st' n. rewrite query_unfold.
  destruct (query_arg rt sql) as [sql'|e]; [|discriminate].
  destruct (_execute_command rt sql' st) as [st1 [[]|e]] eqn:He;
    [|discriminate].
  destruct (_execute_command_returns _ _ _ _ He)
    as [Hc (b & resp & envelope & Hb & Hp & Hj & ->)].
  rewrite _read_query_result_unfold. simpl self. simpl wire.
  destruct (_read_ok_packet _) as [st2 [v|e]] eqn:Hv; [|discriminate].
  destruct (_read_ok_packet_returns _ _ _ Hv)
    as (envelope' & resp' & H1 & H2 & H3 & H4 & H5 & ->).
  simpl in H1, H2.
  assert (E1 : envelope' = envelope)
    by (destruct (self st); simpl in H1; congruence).
  assert (E2 : resp' = resp)
    by (destruct (self st); simpl in H2; congruence).
  subst envelope' resp'.
  simpl self. simpl wire.
  destruct (read _ CovenantSQLResult__init__) as [result [[]|e]];
    [|discriminate].
  intros H. injection H as <- <-.
  split; [exact Hc|].
  exists b, resp, envelope, v, result. simpl.
  destruct (self st); simpl; auto 13.
Qed.

(** X19 on the select of two rows. *)
Lemma query_returns_consistent_state_witness :
  closed (self Samples.opened) = false
  /\ exists b resp envelope success result,
       wire (fst (query (Samples.answering
                           (Samples.response_200 Samples.envelope_rows))
                        (SqlBytes "select * from t") Samples.opened))
       = wire Samples.opened ++ [request_of (self Samples.opened) b]
       /\ session_post (Samples.answering
                          (Samples.response_200 Samples.envelope_rows))
                       (wire Samples.opened)
                       (request_of (self Samples.opened) b)
          = PostReturns resp
       /\ ok resp = true
       /\ body_json resp = Some envelope
       /\ subscript envelope (T "success") = Return success
       /\ truthy success = true
       /\ _resp (self (fst (query (Samples.answering
                           (Samples.response_200 Samples.envelope_rows))
                        (SqlBytes "select * from t") Samples.opened)))
          = Some resp
       /\ _resp_json (self (fst (query (Samples.answering
                           (Samples.response_200 Samples.envelope_rows))
                        (SqlBytes "select * from t") Samples.opened)))
          = Some envelope
       /\ server_status (self (fst (query (Samples.answering
                           (Samples.response_200 Samples.envelope_rows))
                        (SqlBytes "select * from t") Samples.opened)))
          = Some success
       /\ _result (self (fst (query (Samples.answering
                           (Samples.response_200 Samples.envelope_rows))
                        (SqlBytes "select * from t") Samples.opened)))
          = Some result
       /\ affected_rows result = Some 2
       /\ _affected_rows (self (fst (query (Samples.answering
                           (Samples.response_200 Samples.envelope_rows))
                        (SqlBytes "select * from t") Samples.opened)))
          = Some 2.
Proof.
  exact (query_returns_consistent_state
           (Samples.answering (Samples.response_200 Samples.envelope_rows))
           (SqlBytes "select * from t") Samples.opened _ (Some 2) eq_refl).
Defined.

(* ===================================================================== *)
(** ** More on construction *)
(* ===================================================================== *)

(** What the constructor returns is the object it built, with at most the
    attributes [connect] assigns changed. *)
Lemma init_returns rt a w w' c :
  __init__ rt a w = (w', Return c) ->
  exists f,
    read_config rt a = Return f
    /\ check_timeouts rt a = Return tt
    /\ forall X (g : Connection -> X),
         (forall v c, g (set_closed v c) = g c) ->
         (forall v c, g (set_sock v c) = g c) ->
         (forall v c, g (set_resp v c) = g c) ->
         (forall v c, g (set_resp_json v c) = g c) ->
         (forall v c, g (set_server_status v c) = g c) ->
         g c = g (built rt a f).
Proof.
  unfold __init__. intros H.
  destruct (read_config rt a) as [f|e]; [|discriminate H].
  destruct (check_timeouts rt a) as [[]|e]; [|discriminate H].
  exists f. split; [reflexivity|]. split; [reflexivity|].
  intros X g G1 G2 G3 G4 G5.
  destruct (arg_defer_connect a).
  - injection H as _ <-. reflexivity.
  - pose proof (connect_preserves rt g G3 G4 G5 G2 G1
                  {| self := built rt a f; wire := w |}) as Hc.
    destruct (connect rt _) as [st' [[]|e]]; [|discriminate H].
    injection H as _ <-. exact Hc.
Qed.

Lemma check_timeouts_returns rt a :
  check_timeouts rt a = Return tt -> good_timeouts a.
Proof.
  unfold check_timeouts, good_timeouts.
  destruct (arg_connect_timeout a) as [t|];
    [|destruct (PY2 rt); discriminate].
  destruct (int_lt 0 t && le_int t 31536000) eqn:Ec; [|discriminate].
  apply andb_true_iff in Ec. destruct Ec as [E1 E2].
  apply int_lt_above in E1. apply le_int_at_most in E2. simpl.
  destruct (arg_read_timeout a) as [r|].
  - destruct (le_int r 0) eqn:Er; [discriminate|].
    apply le_int_not_at_most in Er.
    destruct (arg_write_timeout a) as [u|].
    + destruct (le_int u 0) eqn:Eu; [discriminate|].
      apply le_int_not_at_most in Eu.
      intros _. split; [exists t; auto|].
      split; intros ? H; injection H as <-; assumption.
    + intros _. split; [exists t; auto|].
      split; intros ? H; [injection H as <-; assumption | discriminate H].
  - destruct (arg_write_timeout a) as [u|].
    + destruct (le_int u 0) eqn:Eu; [discriminate|].
      apply le_int_not_at_most in Eu.
      intros _. split; [exists t; auto|].
      split; intros ? H; [discriminate H | injection H as <-; assumption].
    + intros _. split; [exists t; auto|].
      split; intros ? H; discriminate H.
Qed.

(** [read_config], in terms of the file and the group it uses. *)
Lemma read_config_unfold rt a :
  read_config rt a =
  match effective_file a with
  | Some file =>
      if text_truthy file then
        match _config_port rt file (effective_group a) (arg_port a) with
        | Raise e => Raise e
        | Return p =>
            Return {|
              f_dsn := _config rt file (effective_group a) "dsn" (arg_dsn a);
              f_host :=
                _config rt file (effective_group a) "host" (arg_host a);
              f_port := p;
              f_key := _config rt file (effective_group a) "key" (arg_key a);
              f_database :=
                _config rt file (effective_group a) "database"
                  (arg_database a);
              f_https_pem :=
                _config rt file (effective_group a) "https_pem"
                  (arg_https_pem a) |}
        end
      else Return {| f_dsn := arg_dsn a; f_host := arg_host a;
                     f_port := arg_port a; f_key := arg_key a;
                     f_database := arg_database a;
                     f_https_pem := arg_https_pem a |}
  | None => Return {| f_dsn := arg_dsn a; f_host := arg_host a;
                      f_port := arg_port a; f_key := arg_key a;
                      f_database := arg_database a;
                      f_https_pem := arg_https_pem a |}
  end.
Proof. reflexivity. Qed.

Lemma _config_truthy rt file group k arg :
  opt_text_truthy arg = true -> _config rt file group k arg = arg.
Proof. unfold _config. intros ->. reflexivity. Qed.

Lemma read_config_explicit rt a f :
  read_config rt a = Return f ->
  (opt_text_truthy (arg_host a) = true -> f_host f = arg_host a)
  /\ (arg_port a <> 0 -> f_port f = arg_port a)
  /\ (opt_text_truthy (arg_database a) = true ->
      f_database f = arg_database a)
  /\ (opt_text_truthy (arg_key a) = true -> f_key f = arg_key a)
  /\ (opt_text_truthy (arg_https_pem a) = true ->
      f_https_pem f = arg_https_pem a).
Proof.
  rewrite read_config_unfold.
  destruct (effective_file a) as [file|].
  2:{ intros H. injection H as <-. simpl. auto. }
  destruct (text_truthy file).
  2:{ intros H. injection H as <-. simpl. auto. }
  destruct (_config_port rt file (effective_group a) (arg_port a))
    as [p|e] eqn:Ep; [|discriminate].
  intros H. injection H as <-. simpl.
  repeat split; try (apply _config_truthy).
  intros Hp. unfold _config_port in Ep.
  apply Z.eqb_neq in Hp. rewrite Hp in Ep. simpl in Ep. congruence.
Qed.

Lemma no_config_file_effective a :
  no_config_file a ->
  effective_file a = arg_read_default_file a
  /\ opt_text_truthy (effective_file a) = false.
Proof.
  unfold no_config_file, effective_file. intros [Hf Hg].
  rewrite Hg. simpl. auto.
Qed.

Lemma read_config_no_file rt a :
  no_config_file a ->
  read_config rt a =
  Return {| f_dsn := arg_dsn a; f_host := arg_host a;
            f_port := arg_port a; f_key := arg_key a;
            f_database := arg_database a;
            f_https_pem := arg_https_pem a |}.
Proof.
  intros H. destruct (no_config_file_effective a H) as [_ Hn].
  rewrite read_config_unfold.
  destruct (effective_file a) as [file|]; [|reflexivity].
  simpl in Hn. rewrite Hn. reflexivity.
Qed.

(** X20.  A constructed connection always has a host and a port: the host
    is never empty and the port never 0.  A non-empty host argument and a
    non-zero port argument are taken as they are, whatever a configuration
    file says; without a file, a missing or empty host becomes [localhost]
    and a port 0 becomes 11108. *)
Theorem constructed_host_and_port :
  forall rt a w w' c,
    __init__ rt a w = (w', Return c) ->
    host c <> [] /\ port c <> 0
    /\ (forall h, arg_host a = Some h -> text_truthy h = true -> host c = h)
    /\ (arg_port a <> 0 -> port c = arg_port a)
    /\ (no_config_file a ->
        opt_text_truthy (arg_host a) = false -> host c = T "localhost")
    /\ (no_config_file a -> arg_port a = 0 -> port c = 11108).
Proof.
  intros rt a w w' c H.
  destruct (init_returns _ _ _ _ _ H) as (f & Hf & _ & Hg).
  rewrite (Hg _ host), (Hg _ port); try attr.
  destruct (read_config_explicit _ _ _ Hf) as (Eh & Ep & _).
  simpl. repeat apply conj.
  - destruct (f_host f) as [h|]; [|discriminate].
    destruct h; simpl; discriminate.
  - destruct (f_port f =? 0) eqn:E; [discriminate|].
    apply Z.eqb_neq in E. exact E.
  - intros h Ha Ht. rewrite Eh by (rewrite Ha; exact Ht).
    rewrite Ha, Ht. reflexivity.
  - intros Hp. rewrite (Ep Hp). apply Z.eqb_neq in Hp. rewrite Hp.
    reflexivity.
  - intros Hn Hh. rewrite (read_config_no_file rt a Hn) in Hf.
    injection Hf as <-. simpl.
    destruct (arg_host a) as [h|]; [|reflexivity].
    simpl in Hh. rewrite Hh. reflexivity.
  - intros Hn Hp. rewrite (read_config_no_file rt a Hn) in Hf.
    injection Hf as <-. simpl. rewrite Hp. reflexivity.
Qed.

(** X20 on [Connection(host="10.0.0.1", port=9000, ...)] with a
    configuration file that names another host and port. *)
Lemma constructed_host_and_port_witness :
  exists w' c,
    __init__ MoreSamples.with_file MoreSamples.explicit_args [] = (w', Return c)
    /\ host c = T "10.0.0.1" /\ port c = 9000.
Proof.
  eexists _, _. split; [vm_compute; reflexivity|].
  pose proof (constructed_host_and_port MoreSamples.with_file
                MoreSamples.explicit_args [] _ _ eq_refl)
    as (_ & _ & Hh & Hp & _).
  split.
  - exact (Hh (T "10.0.0.1") eq_refl eq_refl).
  - apply Hp. discriminate.
Defined.

(** X21.  With a configuration file, an option the caller left unset or
    empty is filled from the file's group, the group being
    [python-client] unless one is named and the file [covenant.cnf] when
    only a group is named: a host the file gives becomes the host, a
    database the database, and a port, read through [int()], the port. *)
Theorem config_file_fills_unset_options :
  forall rt a w w' c file,
    __init__ rt a w = (w', Return c) ->
    effective_file a = Some file ->
    text_truthy file = true ->
    let look := fun k => cfg_get rt file (effective_group a) (T k) in
    (opt_text_truthy (arg_host a) = false ->
     forall h, look "host" = Some h -> text_truthy h = true -> host c = h)
    /\ (opt_text_truthy (arg_database a) = false ->
        forall d, look "database" = Some d -> database c = Some d)
    /\ (opt_text_truthy (arg_database a) = false ->
        look "database" = None -> database c = arg_database a)
    /\ (arg_port a = 0 ->
        forall s n,
          look "port" = Some s -> py_int rt s = Some n -> n <> 0 ->
          port c = n).
Proof.
  intros rt a w w' c file H Hfile Ht look.
  destruct (init_returns _ _ _ _ _ H) as (f & Hf & _ & Hg).
  rewrite (Hg _ host), (Hg _ port), (Hg _ database); try attr.
  rewrite read_config_unfold, Hfile, Ht in Hf.
  destruct (_config_port rt file (effective_group a) (arg_port a))
    as [p|e] eqn:Ep; [|discriminate Hf].
  injection Hf as <-. simpl. unfold _config. fold look.
  repeat apply conj.
  - intros Ha h Hl Hh. rewrite Ha. unfold look in Hl. rewrite Hl, Hh.
    reflexivity.
  - intros Ha d Hl. rewrite Ha. unfold look in Hl. rewrite Hl. reflexivity.
  - intros Ha Hl. rewrite Ha. unfold look in Hl. rewrite Hl. reflexivity.
  - intros Hp s n Hl Hi Hn. unfold _config_port in Ep.
    rewrite Hp in Ep. simpl in Ep. unfold look in Hl.
    rewrite Hl, Hi in Ep. injection Ep as <-.
    apply Z.eqb_neq in Hn. rewrite Hn. reflexivity.
Qed.

(** X21 on [Connection(read_default_file="my.cnf", defer_connect=True)]. *)
Lemma config_file_fills_witness :
  exists w' c,
    __init__ MoreSamples.with_file MoreSamples.file_args [] = (w', Return c)
    /\ host c = T "db.example.org"
    /\ database c = Some (T "db0")
    /\ port c = 8080.
Proof.
  eexists _, _. split; [vm_compute; reflexivity|].
  pose proof (config_file_fills_unset_options MoreSamples.with_file
                MoreSamples.file_args [] _ _ (T "my.cnf")
                eq_refl eq_refl eq_refl) as H.
  cbv zeta in H. destruct H as (Hh & Hd & _ & Hp).
  split; [|split].
  - exact (Hh eq_refl (T "db.example.org") eq_refl eq_refl).
  - exact (Hd eq_refl (T "db0") eq_refl).
  - apply (Hp eq_refl (T "8080") 8080 eq_refl eq_refl). discriminate.
Defined.

(** X22.  When the port argument is 0 and the file gives a port that
    [int()] cannot read, the constructor raises [ValueError], none of the
    three timeout errors, whatever the timeouts are and whether or not the
    connection is deferred; nothing goes to the transport. *)
Theorem unreadable_port_in_file :
  forall rt a w file s,
    effective_file a = Some file ->
    text_truthy file = true ->
    arg_port a = 0 ->
    cfg_get rt file (effective_group a) (T "port") = Some s ->
    py_int rt s = None ->
    exists e,
      __init__ rt a w = (w, Raise e)
      /\ exn_cls e = ValueError
      /\ ~ In e timeout_errors.
Proof.
  intros rt a w file s Hfile Ht Hp Hl Hi.
  unfold __init__. rewrite read_config_unfold, Hfile, Ht.
  unfold _config_port. rewrite Hp. simpl. rewrite Hl, Hi.
  eexists. split; [reflexivity|]. split; [reflexivity|].
  simpl. intros [E|[E|[E|[]]]]; discriminate E.
Qed.

(** X22 with a file whose port is [http], and a timeout of 0 besides. *)
Lemma unreadable_port_witness :
  exists e,
    __init__ MoreSamples.with_bad_port MoreSamples.bad_port_args []
    = ([], Raise e)
    /\ exn_cls e = ValueError
    /\ ~ In e timeout_errors.
Proof.
  exact (unreadable_port_in_file MoreSamples.with_bad_port
           MoreSamples.bad_port_args []
           (T "my.cnf") (T "http") eq_refl eq_refl eq_refl eq_refl eq_refl).
Defined.

(** X23.  The session of a constructed connection never verifies the
    server certificate, and its client certificate is the key alone, or
    the pair of the certificate file and the key when a non-empty
    [https_pem] is given; no later call changes either. *)
Theorem session_of_constructed_connection :
  forall rt a w w' c ks,
    __init__ rt a w = (w', Return c) ->
    let c' := self (run rt ks {| self := c; wire := w' |}) in
    verify (_session c') = false
    /\ (cert (_session c') = CertKey (key c')
        \/ exists pem,
             text_truthy pem = true
             /\ cert (_session c') = CertPair pem (key c'))
    /\ (forall pem,
          arg_https_pem a = Some pem -> text_truthy pem = true ->
          cert (_session c') = CertPair pem (key c')).
Proof.
  intros rt a w w' c ks H c'. unfold c'.
  rewrite !(run_preserves rt _session), !(run_preserves rt key); try attr.
  simpl self.
  destruct (init_returns _ _ _ _ _ H) as (f & Hf & _ & Hg).
  rewrite (Hg _ _session), (Hg _ key); try attr.
  destruct (read_config_explicit _ _ _ Hf) as (_ & _ & _ & _ & Hpem).
  simpl. repeat apply conj.
  - reflexivity.
  - destruct (f_https_pem f) as [pem|]; [|left; reflexivity].
    destruct (text_truthy pem) eqn:E; [|left; reflexivity].
    right. exists pem. auto.
  - intros pem Ha Ht. rewrite Hpem by (rewrite Ha; exact Ht).
    rewrite Ha, Ht. reflexivity.
Qed.

(** X23 on [Connection(https_pem="c.pem", key="k.pem", ...)] after a
    query and a close. *)
Lemma session_witness :
  exists w' c,
    __init__ MoreSamples.with_file MoreSamples.explicit_args [] = (w', Return c)
    /\ let c' := self (run MoreSamples.with_file
                         [Query (SqlBytes "select 1"); Close]
                         {| self := c; wire := w' |}) in
       verify (_session c') = false
       /\ cert (_session c') = CertPair (T "c.pem") (key c').
Proof.
  eexists _, _. split; [vm_compute; reflexivity|].
  pose proof (session_of_constructed_connection MoreSamples.with_file
                MoreSamples.explicit_args [] _ _
                [Query (SqlBytes "select 1"); Close] eq_refl) as H.
  cbv zeta in H. destruct H as (Hv & _ & Hc).
  cbv zeta. split; [exact Hv|].
  exact (Hc (T "c.pem") eq_refl eq_refl).
Defined.

Lemma above_zero_truthy t : above 0 t -> number_truthy t = true.
Proof.
  destruct t as [z|q|negative|]; simpl; intros H; try reflexivity.
  - apply negb_true_iff, Z.eqb_neq. lia.
  - apply negb_true_iff. destruct (Qeq_bool q 0) eqn:E; [|reflexivity].
    apply Qeq_bool_iff in E. exfalso.
    apply (Qlt_not_eq _ _ H). symmetry. exact E.
Qed.

(** X24.  The timeouts a constructed connection stores are within the
    ranges the constructor checks, and stay so: the connect timeout is the
    number given, with 0 < t <= 31536000 (an integer from 1 to 31536000; a
    float such as 0.5 as well), so the [or None] of the source never
    applies; a read or write timeout is the one given, unset or not at most
    0. *)
Theorem stored_timeouts_in_range :
  forall rt a w w' c ks,
    __init__ rt a w = (w', Return c) ->
    let c' := self (run rt ks {| self := c; wire := w' |}) in
    (exists t,
       arg_connect_timeout a = Some t
       /\ connect_timeout c' = Some t
       /\ above 0 t /\ at_most 31536000 t
       /\ (forall z, t = NumInt z -> 1 <= z <= 31536000))
    /\ _read_timeout c' = arg_read_timeout a
    /\ _write_timeout c' = arg_write_timeout a
    /\ (forall t, _read_timeout c' = Some t -> ~ at_most 0 t)
    /\ (forall t, _write_timeout c' = Some t -> ~ at_most 0 t).
Proof.
  intros rt a w w' c ks H c'. unfold c'.
  rewrite !(run_preserves rt connect_timeout),
    !(run_preserves rt _read_timeout), !(run_preserves rt _write_timeout);
    try attr.
  simpl self.
  destruct (init_returns _ _ _ _ _ H) as (f & _ & Hck & Hg).
  rewrite (Hg _ connect_timeout), (Hg _ _read_timeout),
    (Hg _ _write_timeout); try attr.
  destruct (check_timeouts_returns rt a Hck) as ((t & Ht & H1 & H2) & Hr & Hw).
  simpl. split; [|auto].
  exists t. rewrite Ht, (above_zero_truthy t H1).
  repeat split; try assumption.
  - subst t. simpl in H1. lia.
  - subst t. simpl in H2. lia.
Qed.

(** X24 on [Connection(connect_timeout=0.5, defer_connect=True)] and on
    [Connection(..., read_timeout=30, defer_connect=True)]. *)
Lemma stored_timeouts_witness :
  (exists w' c,
     __init__ Samples.unreachable Samples.half_second_args [] = (w', Return c)
     /\ exists t, connect_timeout c = Some t /\ above 0 t)
  /\ (exists w' c,
        __init__ MoreSamples.with_file MoreSamples.explicit_args []
        = (w', Return c)
        /\ _read_timeout c = Some (NumInt 30)).
Proof.
  split.
  - eexists _, _. split; [vm_compute; reflexivity|].
    pose proof (stored_timeouts_in_range Samples.unreachable
                  Samples.half_second_args [] _ _ [] eq_refl) as H.
    cbv zeta in H. destruct H as ((t & _ & H1 & H2 & _) & _).
    exists t. split; assumption.
  - eexists _, _. split; [vm_compute; reflexivity|].
    pose proof (stored_timeouts_in_range MoreSamples.with_file
                  MoreSamples.explicit_args [] _ _ [] eq_refl) as H.
    cbv zeta in H. destruct H as (_ & H2 & _). exact H2.
Defined.

(** X25.  Deferred construction without a configuration file succeeds
    exactly when the connect timeout is a number with 0 < t <= 31536000
    (0.5 passes, 0 and a missing value do not) and the read and write
    timeouts are unset or not at most 0; and it contacts nothing. *)
Theorem deferred_construction_succeeds_iff :
  forall rt a w,
    arg_defer_connect a = true ->
    no_config_file a ->
    ((exists w' c, __init__ rt a w = (w', Return c))
     <-> (exists t, arg_connect_timeout a = Some t
                    /\ above 0 t /\ at_most 31536000 t)
         /\ (forall t, arg_read_timeout a = Some t -> ~ at_most 0 t)
         /\ (forall t, arg_write_timeout a = Some t -> ~ at_most 0 t))
    /\ fst (__init__ rt a w) = w.
Proof.
  intros rt a w Hd Hn. split; [split|].
  - intros (w' & c & H).
    destruct (init_returns _ _ _ _ _ H) as (f & _ & Hck & _).
    exact (check_timeouts_returns rt a Hck).
  - intros Hg. unfold __init__.
    rewrite (read_config_no_file rt a Hn), (check_timeouts_good rt a Hg), Hd.
    eexists _, _. reflexivity.
  - unfold __init__. rewrite (read_config_no_file rt a Hn), Hd.
    destruct (check_timeouts rt a) as [[]|e]; reflexivity.
Qed.

(** X25 on [Connection(connect_timeout=0.5, defer_connect=True)]. *)
Lemma deferred_construction_witness :
  exists w' c,
    __init__ Samples.unreachable Samples.half_second_args [] = (w', Return c).
Proof.
  apply (proj2 (proj1 (deferred_construction_succeeds_iff Samples.unreachable
                         Samples.half_second_args [] eq_refl
                         (conj eq_refl eq_refl)))).
  split; [|split; intros ? H; discriminate H].
  exists (NumFloat (1 # 2)). repeat split; reflexivity || discriminate.
Defined.

(** X26.  A construction that is not deferred, once the configuration is
    read and the timeouts are accepted, sends exactly one request, the
    probe [select 1;] to the query endpoint of the host and port it
    settled on, and returns a connection exactly when the probe is answered
    with a valid envelope; that connection is open, with no stored result
    and a row count of 0. *)
Theorem construction_sends_one_probe :
  forall rt a w f,
    arg_defer_connect a = false ->
    read_config rt a = Return f ->
    good_timeouts a ->
    let c0 := built rt a f in
    fst (__init__ rt a w) =
      w ++ [ {| uri := T "https://" ++ host c0 ++ T ":"
                       ++ str_of_int (port c0) ++ T "/v1/query";
                form_database := f_database f;
                form_query := "select 1;" |} ]
    /\ ((exists c, snd (__init__ rt a w) = Return c)
        <-> validates rt {| self := c0; wire := w |} "select 1;")
    /\ (forall c,
          snd (__init__ rt a w) = Return c ->
          closed c = false /\ _sock c = Some true
          /\ _result c = None /\ _affected_rows c = Some 0).
Proof.
  intros rt a w f Hd Hf Hg c0.
  set (st0 := {| self := c0; wire := w |}).
  assert (E : __init__ rt a w =
    match connect rt st0 with
    | (st, Return _) => (wire st, Return (self st))
    | (st, Raise e) => (wire st, Raise e)
    end).
  { unfold __init__. rewrite Hf, (check_timeouts_good rt a Hg), Hd.
    reflexivity. }
  rewrite E. split; [|split].
  - pose proof (connect_sends rt st0) as H.
    destruct (connect rt st0) as [st [[]|e]]; exact H.
  - rewrite <- (connect_returns_iff rt st0).
    destruct (connect rt st0) as [st [[]|e]]; simpl; split.
    + reflexivity.
    + intros _. eexists. reflexivity.
    + intros [c H]. discriminate H.
    + discriminate.
  - intros c.
    pose proof (connect_not_closed rt st0) as H1.
    pose proof (connect_preserves rt _sock
                  ltac:(attr) ltac:(attr) ltac:(attr)) as H2.
    pose proof (connect_preserves rt _result
                  ltac:(attr) ltac:(attr) ltac:(attr)
                  ltac:(attr) ltac:(attr) st0) as H3.
    pose proof (connect_preserves rt _affected_rows
                  ltac:(attr) ltac:(attr) ltac:(attr)
                  ltac:(attr) ltac:(attr) st0) as H4.
    clear H2.
    assert (H2 : _sock (self (fst (connect rt st0))) = Some true).
    { unfold connect.
      set (rest := bind (_execute_command rt (literal rt "select 1;")) _).
      unfold bind at 1 2. simpl.
      assert (Hrest : preserves _sock rest).
      { unfold rest. frame;
          [apply _execute_command_preserves | apply _read_ok_packet_preserves];
          attr. }
      rewrite Hrest. simpl. destruct c0; reflexivity. }
    destruct (connect rt st0) as [st [[]|e]]; simpl in *; [|discriminate].
    intros H. injection H as <-.
    unfold closed. rewrite H1, H2, H3, H4. repeat split; reflexivity.
Qed.

(** X26 on [Connection(host="10.0.0.1", port=9000, database="db0")]
    and with the defaults, with a transport that answers
    [{"success": true, "data": null}]. *)
Lemma construction_sends_one_probe_witness :
  fst (__init__ (Samples.answering
                   (Samples.response_200 Samples.envelope_exec))
                Samples.remote_args [])
  = [ {| uri := T "https://10.0.0.1:9000/v1/query";
         form_database := Some (T "db0");
         form_query := "select 1;" |} ]
  /\ fst (__init__ (Samples.answering
                      (Samples.response_200 Samples.envelope_exec))
                   default_args [])
     = [ {| uri := T "https://localhost:11108/v1/query";
            form_database := None;
            form_query := "select 1;" |} ].
Proof.
  split.
  - refine (proj1 (construction_sends_one_probe
                     (Samples.answering
                        (Samples.response_200 Samples.envelope_exec))
                     Samples.remote_args [] _ eq_refl eq_refl _)).
    split; [|split; intros ? H; discriminate H].
    exists (NumInt 10). repeat split; simpl; lia.
  - refine (proj1 (construction_sends_one_probe
                     (Samples.answering
                        (Samples.response_200 Samples.envelope_exec))
                     default_args [] _ eq_refl eq_refl _)).
    split; [|split; intros ? H; discriminate H].
    exists (NumInt 10). repeat split; simpl; lia.
Defined.

(* ===================================================================== *)
(** ** Invariants of every connection the constructor makes *)
(* ===================================================================== *)

(** [read] assigns the row count and the rows, nothing else. *)
Lemma read_fields c r :
  let r' := fst (read c r) in
  insert_id r' = insert_id r /\ warning_count r' = warning_count r
  /\ message r' = message r /\ field_count r' = field_count r
  /\ description r' = description r /\ has_next r' = has_next r.
Proof.
  cbv zeta. unfold read.
  destruct (resp_json_data c) as [data|e]; [|simpl; auto 6].
  assert (Hgo :
    let r' := fst
      match subscript data (T "rows") with
      | Raise e => (r, Raise e)
      | Return data_rows =>
          match len data_rows with
          | Raise e => (r, Raise e)
          | Return n =>
              let r := set_affected_rows (Some n) r in
              match iter data_rows with
              | Raise e => (r, Raise e)
              | Return lines =>
                  match append_lines lines [] with
                  | Raise e => (r, Raise e)
                  | Return rows => (set_rows (Some rows) r, @Return unit tt)
                  end
              end
          end
      end in
    insert_id r' = insert_id r /\ warning_count r' = warning_count r
    /\ message r' = message r /\ field_count r' = field_count r
    /\ description r' = description r /\ has_next r' = has_next r).
  { cbv zeta.
    destruct (subscript data (T "rows")) as [data_rows|e1]; [|simpl; auto 6].
    destruct (len data_rows) as [n|e2]; [|simpl; auto 6].
    destruct (iter data_rows) as [lines|e3]; [|simpl; auto 6].
    destruct (append_lines lines []) as [rs|e4]; simpl; auto 6. }
  destruct data; exact Hgo.
Qed.

Lemma read_well_formed c r :
  read c CovenantSQLResult__init__ = (r, Return tt) -> well_formed_result r.
Proof.
  intros H. pose proof (read_fields c CovenantSQLResult__init__) as F.
  cbv zeta in F. rewrite H in F. simpl in F.
  destruct F as (F1 & F2 & F3 & F4 & F5 & F6).
  unfold well_formed_result. repeat (split; [assumption|]).
  exact (read_count_is_number_of_rows_aux c r H).
Qed.

Lemma _read_query_result_invariant st :
  result_invariant (set_affected
                      (match snd (_read_query_result st) with
                       | Return n => n
                       | Raise _ => None
                       end)
                      (self (fst (_read_query_result st))))
  /\ (forall e, snd (_read_query_result st) = Raise e ->
      _result (self (fst (_read_query_result st))) = None).
Proof.
  rewrite _read_query_result_unfold.
  set (st0 := {| self := set_result None (self st); wire := wire st |}).
  pose proof (_read_ok_packet_preserves _result ltac:(attr) st0) as Hp.
  assert (H0 : _result (self st0) = None)
    by (unfold st0; simpl; destruct (self st); reflexivity).
  rewrite H0 in Hp.
  destruct (_read_ok_packet st0) as [st1 [v|e]]; simpl in Hp.
  - destruct (read (self st1) CovenantSQLResult__init__)
      as [result [[]|e]] eqn:Hr; simpl.
    + split; [|discriminate].
      intros r Hres.
      assert (E : r = result) by (destruct (self st1); simpl in Hres;
                                   congruence).
      subst r. split; [exact (read_well_formed _ _ Hr)|].
      destruct (self st1); reflexivity.
    + split; [|intros _ _; exact Hp].
      intros r Hres. exfalso.
      destruct (self st1); simpl in *; congruence.
  - simpl. split; [|intros _ _; exact Hp].
    intros r Hres. exfalso. destruct (self st1); simpl in *; congruence.
Qed.

Lemma result_invariant_frame c c' :
  _result c' = _result c -> _affected_rows c' = _affected_rows c ->
  result_invariant c -> result_invariant c'.
Proof. unfold result_invariant. intros -> ->. auto. Qed.

Lemma invoke_result_invariant rt k st :
  result_invariant (self st) ->
  result_invariant (self (fst (invoke rt k st))).
Proof.
  intros Hinv.
  destruct k as [| | | |sql|o].
  - apply (result_invariant_frame (self st)); [| |exact Hinv];
      simpl; [pose proof (connect_preserves rt _result
                 ltac:(attr) ltac:(attr) ltac:(attr) ltac:(attr) ltac:(attr)
                 st) as H
             |pose proof (connect_preserves rt _affected_rows
                 ltac:(attr) ltac:(attr) ltac:(attr) ltac:(attr) ltac:(attr)
                 st) as H];
      destruct (connect rt st) as [st' [[]|e]]; exact H.
  - apply (result_invariant_frame (self st)); [| |exact Hinv];
      simpl; [pose proof (close_preserves _result ltac:(attr) ltac:(attr) st)
                as H
             |pose proof (close_preserves _affected_rows
                 ltac:(attr) ltac:(attr) st) as H];
      destruct (close st) as [st' [[]|e]]; exact H.
  - apply (result_invariant_frame (self st)); [| |exact Hinv];
      simpl; [pose proof (commit_preserves rt _result
                 ltac:(attr) ltac:(attr) ltac:(attr) st) as H
             |pose proof (commit_preserves rt _affected_rows
                 ltac:(attr) ltac:(attr) ltac:(attr) st) as H];
      destruct (commit rt st) as [st' [[]|e]]; exact H.
  - apply (result_invariant_frame (self st)); [| |exact Hinv];
      simpl; [pose proof (rollback_preserves rt _result
                 ltac:(attr) ltac:(attr) ltac:(attr) st) as H
             |pose proof (rollback_preserves rt _affected_rows
                 ltac:(attr) ltac:(attr) ltac:(attr) st) as H];
      destruct (rollback rt st) as [st' [[]|e]]; exact H.
  - simpl. rewrite query_unfold.
    destruct (query_arg rt sql) as [sql'|e]; [|exact Hinv].
    pose proof (_execute_command_preserves rt _result
                  ltac:(attr) ltac:(attr) sql' st) as H1.
    pose proof (_execute_command_preserves rt _affected_rows
                  ltac:(attr) ltac:(attr) sql' st) as H2.
    destruct (_execute_command rt sql' st) as [st1 [[]|e]]; simpl in *.
    2:{ exact (result_invariant_frame _ _ H1 H2 Hinv). }
    destruct (_read_query_result_invariant st1) as [Hq Hn].
    destruct (_read_query_result st1) as [st2 [n|e]]; simpl in *.
    + exact Hq.
    + intros r Hr. rewrite (Hn e eq_refl) in Hr. discriminate Hr.
  - apply (result_invariant_frame (self st)); [| |exact Hinv];
      simpl; [pose proof (cursor_preserves _result o st) as H
             |pose proof (cursor_preserves _affected_rows o st) as H];
      destruct (cursor o st) as [st' [x|e]]; exact H.
Qed.

(** X27.  On a connection made by the constructor, after any calls, a
    stored result is always well formed and in step with the connection:
    its insert id, message, description and has-next flag are unset, its
    warning and field counts are 0, both its rows and its row count are
    unset or the count is the number of rows, and its row count is the
    connection's last row count. *)
Theorem stored_result_is_well_formed :
  forall rt a w w' c ks r,
    __init__ rt a w = (w', Return c) ->
    _result (self (run rt ks {| self := c; wire := w' |})) = Some r ->
    well_formed_result r
    /\ _affected_rows (self (run rt ks {| self := c; wire := w' |}))
       = affected_rows r.
Proof.
  intros rt a w w' c ks r Hinit.
  assert (H0 : result_invariant c).
  { destruct (init_returns _ _ _ _ _ Hinit) as (f & _ & _ & Hg).
    intros r0 Hr0. rewrite (Hg _ _result) in Hr0 by attr.
    discriminate Hr0. }
  assert (Hrun : forall st,
            result_invariant (self st) ->
            result_invariant (self (run rt ks st))).
  { induction ks as [|k ks IH]; intros st Hst; simpl; [exact Hst|].
    apply IH, invoke_result_invariant, Hst. }
  intros Hr. exact (Hrun {| self := c; wire := w' |} H0 r Hr).
Qed.

(** X27 after a select of two rows followed by a commit. *)
Lemma stored_result_witness :
  exists w' c r,
    __init__ (Samples.answering (Samples.response_200 Samples.envelope_rows))
             default_args [] = (w', Return c)
    /\ _result (self (run (Samples.answering
                             (Samples.response_200 Samples.envelope_rows))
                          [Query (SqlBytes "select * from t"); Commit]
                          {| self := c; wire := w' |})) = Some r
    /\ well_formed_result r
    /\ affected_rows r = Some 2.
Proof.
  eexists _, _, _. split; [vm_compute; reflexivity|].
  split; [vm_compute; reflexivity|].
  split; [|reflexivity].
  exact (proj1 (stored_result_is_well_formed
                  (Samples.answering
                     (Samples.response_200 Samples.envelope_rows))
                  default_args [] _ _
                  [Query (SqlBytes "select * from t"); Commit] _
                  eq_refl eq_refl)).
Defined.

Lemma connect_sock rt st : _sock (self (fst (connect rt st))) = Some true.
Proof.
  unfold connect.
  set (rest := bind (_execute_command rt (literal rt "select 1;")) _).
  unfold bind at 1 2. simpl.
  assert (Hrest : preserves _sock rest).
  { unfold rest. frame;
      [apply _execute_command_preserves | apply _read_ok_packet_preserves];
      attr. }
  rewrite Hrest. simpl. destruct (self st); reflexivity.
Qed.

Lemma invoke_lifecycle_invariant rt k st :
  lifecycle_invariant (self st) ->
  lifecycle_invariant (self (fst (invoke rt k st))).
Proof.
  intros Hinv.
  assert (Hsame : forall st' : state,
            _sock (self st') = _sock (self st) ->
            _closed (self st') = _closed (self st) ->
            lifecycle_invariant (self st')).
  { intros st' H1 H2. unfold lifecycle_invariant. rewrite H1, H2.
    exact Hinv. }
  destruct k as [| | | |sql|o]; simpl.
  - left.
    pose proof (connect_sock rt st) as H1.
    pose proof (connect_not_closed rt st) as H2.
    destruct (connect rt st) as [st' [[]|e]]; simpl in *; auto.
  - unfold close, bind, get_self.
    destruct (closed (self st)) eqn:Hc; simpl; [exact Hinv|].
    right. destruct (self st); simpl. auto.
  - apply Hsame;
      [pose proof (commit_preserves rt _sock
                     ltac:(attr) ltac:(attr) ltac:(attr) st) as H
      |pose proof (commit_preserves rt _closed
                     ltac:(attr) ltac:(attr) ltac:(attr) st) as H];
      destruct (commit rt st) as [st' [[]|e]]; exact H.
  - apply Hsame;
      [pose proof (rollback_preserves rt _sock
                     ltac:(attr) ltac:(attr) ltac:(attr) st) as H
      |pose proof (rollback_preserves rt _closed
                     ltac:(attr) ltac:(attr) ltac:(attr) st) as H];
      destruct (rollback rt st) as [st' [[]|e]]; exact H.
  - apply Hsame;
      [pose proof (query_preserves rt _sock
                     ltac:(attr) ltac:(attr) ltac:(attr) ltac:(attr)
                     ltac:(attr) sql st) as H
      |pose proof (query_preserves rt _closed
                     ltac:(attr) ltac:(attr) ltac:(attr) ltac:(attr)
                     ltac:(attr) sql st) as H];
      destruct (query rt sql st) as [st' [n|e]]; exact H.
  - apply Hsame;
      [pose proof (cursor_preserves _sock o st) as H
      |pose proof (cursor_preserves _closed o st) as H];
      destruct (cursor o st) as [st' [x|e]]; exact H.
Qed.

(** X28.  On a connection made by the constructor, after any calls, the
    socket marker and the closed flag agree: either the marker is set and
    the flag is false, or the marker is unset and the flag is true or was
    never assigned (a deferred connection that was not opened); so a closed
    connection never holds the marker. *)
Theorem socket_marker_follows_lifecycle :
  forall rt a w w' c ks,
    __init__ rt a w = (w', Return c) ->
    let c' := self (run rt ks {| self := c; wire := w' |}) in
    lifecycle_invariant c'
    /\ (closed c' = true -> _sock c' = None)
    /\ (_sock c' = Some true -> closed c' = false).
Proof.
  intros rt a w w' c ks Hinit c'.
  assert (H0 : lifecycle_invariant c).
  { unfold __init__ in Hinit.
    destruct (read_config rt a) as [f|e]; [|discriminate Hinit].
    destruct (check_timeouts rt a) as [[]|e]; [|discriminate Hinit].
    destruct (arg_defer_connect a).
    - injection Hinit as _ <-. right. simpl. auto.
    - pose proof (connect_sock rt {| self := built rt a f; wire := w |})
        as H1.
      pose proof (connect_not_closed rt
                    {| self := built rt a f; wire := w |}) as H2.
      destruct (connect rt _) as [st' [[]|e]]; [|discriminate Hinit].
      injection Hinit as _ <-. left. simpl in *. auto. }
  assert (Hrun : forall st,
            lifecycle_invariant (self st) ->
            lifecycle_invariant (self (run rt ks st))).
  { induction ks as [|k ks IH]; intros st Hst; simpl; [exact Hst|].
    apply IH, invoke_lifecycle_invariant, Hst. }
  pose proof (Hrun {| self := c; wire := w' |} H0) as H.
  fold c' in H. split; [exact H|].
  unfold closed.
  destruct H as [[Hs Hc]|[Hs [Hc|Hc]]]; rewrite Hs, Hc; split;
    intros E; try reflexivity; discriminate E.
Qed.

(** X28 after a close. *)
Lemma socket_marker_witness :
  exists w' c,
    __init__ (Samples.answering (Samples.response_200 Samples.envelope_exec))
             default_args [] = (w', Return c)
    /\ _sock (self (run (Samples.answering
                           (Samples.response_200 Samples.envelope_exec))
                        [Commit; Close] {| self := c; wire := w' |})) = None.
Proof.
  eexists _, _. split; [vm_compute; reflexivity|].
  pose proof (socket_marker_follows_lifecycle
                (Samples.answering (Samples.response_200 Samples.envelope_exec))
                default_args [] _ _ [Commit; Close] eq_refl) as H.
  cbv zeta in H. destruct H as (_ & H & _).
  apply H. reflexivity.
Defined.
